(** * volve-manifest-query: manifest index, search engine and loader

    A shallow embedding of the Python sources of the repository

    - [models.py]   (package [volve_query]): the pydantic records,
    - [index.py]    : [ManifestIndex], the flat in-memory index,
    - [api.py]      : the query endpoints served from a [ManifestIndex],
    - [volve_query/api.py] : the older endpoints, served from the manifest
                      mapping directly (module [LegacyApi] below),
    - [volve_query/loader.py] : the directory loader,

    followed by the properties of the specification that were checked against
    them.

    Modelling conventions.
    - A Python [str] is a [string]; its characters are 8-bit.  Case folding
      and white space follow Python on the ASCII range (the manifests of the
      data set are ASCII); characters above 127 are left alone.
    - A Python [int] is a [Z]; [len] is [Z.of_nat (length _)].
    - A Python [dict] is an association list in insertion order: the order of
      iteration decides the order of the flat index.
    - A Python [set] of strings is a [gset string].
    - [Optional[T]] is [option T]; an exception is a constructor of the
      result type. *)

From Stdlib Require Import ZArith Ascii String List Lia.
From stdpp Require Import base decidable option list strings gmap sorting.

Local Open Scope string_scope.
Local Open Scope list_scope.

(* ===================================================================== *)
(** * Python built-ins used by the sources                                *)
(* ===================================================================== *)

Module Py.

(** [str.isspace] of one character, ASCII range: TAB..CR, FS..US, space. *)
Definition isspace (c : ascii) : bool :=
  let n := N_of_ascii c in
  (((9 <=? n) && (n <=? 13)) || ((28 <=? n) && (n <=? 32)))%N.

Definition lower_char (c : ascii) : ascii :=
  let n := N_of_ascii c in
  if ((65 <=? n) && (n <=? 90))%N then ascii_of_N (n + 32) else c.

(** [s.lower()] *)
Fixpoint lower (s : string) : string :=
  match s with
  | EmptyString => EmptyString
  | String c s' => String (lower_char c) (lower s')
  end.

(** [s.lstrip()] *)
Fixpoint lstrip (s : string) : string :=
  match s with
  | EmptyString => EmptyString
  | String c s' => if isspace c then lstrip s' else s
  end.

(** [s.rstrip()] *)
Fixpoint rstrip (s : string) : string :=
  match s with
  | EmptyString => EmptyString
  | String c s' =>
      match rstrip s' with
      | EmptyString => if isspace c then EmptyString else String c EmptyString
      | r => String c r
      end
  end.

(** [s.strip()] *)
Definition strip (s : string) : string := rstrip (lstrip s).

(** Truth value of a string: [bool(s)], i.e. [s] is not empty. *)
Definition truthy (s : string) : bool :=
  match s with EmptyString => false | String _ _ => true end.

(** [s.replace(a, b)] for one-character [a] and [b]. *)
Fixpoint replace (a b : ascii) (s : string) : string :=
  match s with
  | EmptyString => EmptyString
  | String c s' => String (if decide (c = a) then b else c) (replace a b s')
  end.

(** [a in s] for a one-character [a]. *)
Fixpoint has_char (a : ascii) (s : string) : bool :=
  match s with
  | EmptyString => false
  | String c s' => if decide (c = a) then true else has_char a s'
  end.

(** [s.split(sep)] for a one-character [sep]: never the empty list. *)
Fixpoint split (sep : ascii) (s : string) : list string :=
  match s with
  | EmptyString => [EmptyString]
  | String c s' =>
      if decide (c = sep) then EmptyString :: split sep s'
      else match split sep s' with
           | [] => [String c EmptyString]
           | p :: ps => String c p :: ps
           end
  end.

(** [s.startswith(p)] *)
Fixpoint startswith (p s : string) : bool :=
  match p, s with
  | EmptyString, _ => true
  | String _ _, EmptyString => false
  | String a p', String c s' => if decide (a = c) then startswith p' s' else false
  end.

(** [needle in hay], substring containment. *)
Fixpoint contains (needle hay : string) : bool :=
  if startswith needle hay then true
  else match hay with
       | EmptyString => false
       | String _ hay' => contains needle hay'
       end.

(** [sep.join(parts)] *)
Fixpoint join (sep : string) (parts : list string) : string :=
  match parts with
  | [] => EmptyString
  | [p] => p
  | p :: ps => p ++ sep ++ join sep ps
  end.

(** [s.endswith(p)] *)
Definition endswith (p s : string) : bool :=
  startswith (String.rev p) (String.rev s).

(** Index normalisation of one bound of a slice over a list of length
    [len]: a negative bound counts from the end, and every bound is
    clamped into [0, len]. *)
Definition slice_bound (len i : Z) : Z :=
  if (i <? 0)%Z then Z.max (i + len) 0 else Z.min i len.

(** [l[start:stop]] *)
Definition slice {A} (l : list A) (start stop : Z) : list A :=
  let n := Z.of_nat (length l) in
  let lo := slice_bound n start in
  let hi := slice_bound n stop in
  take (Z.to_nat (hi - lo)) (drop (Z.to_nat lo) l).

(** [len(l)] *)
Definition len {A} (l : list A) : Z := Z.of_nat (length l).

(** A [dict] with string keys, in insertion order. *)
Definition dict (V : Type) : Type := list (string * V).

(** [d.get(k)] *)
Fixpoint get {V} (d : dict V) (k : string) : option V :=
  match d with
  | [] => None
  | (k', v) :: d' => if decide (k' = k) then Some v else get d' k
  end.

(** [k in d] *)
Definition mem {V} (k : string) (d : dict V) : bool :=
  match get d k with Some _ => true | None => false end.

(** [d[k] = v]: an existing key keeps its place, a new key goes last. *)
Fixpoint set {V} (d : dict V) (k : string) (v : V) : dict V :=
  match d with
  | [] => [(k, v)]
  | (k', v') :: d' =>
      if decide (k' = k) then (k', v) :: d' else (k', v') :: set d' k v
  end.

Definition keys {V} (d : dict V) : list string := fst <$> d.
Definition values {V} (d : dict V) : list V := snd <$> d.

(** [sorted(l)] on strings: code-point order. *)
Definition sorted (l : list string) : list string := merge_sort String.le l.

(** [sum(l)] on integers. *)
Definition sum (l : list Z) : Z := foldr Z.add 0%Z l.

End Py.

(* ===================================================================== *)
(** * [models.py]                                                         *)
(* ===================================================================== *)

(** [EntryType = Literal["file", "directory"]] *)
Inductive EntryType := file | directory.

#[global] Instance EntryType_eq_dec : EqDecision EntryType.
Proof. solve_decision. Defined.

(** [tags: Union[str, List[str], None]] *)
Inductive RawTags :=
| TagsNone
| TagsStr (s : string)
| TagsList (l : list string).

Module ManifestNode.
Record t := mk {
  path : string;
  name : string;
  type : EntryType;
  ext_norm : string;
  top_folder : string;
  tags : RawTags;
  foreign_ref_wells : list string
}.
End ManifestNode.

Module Manifest.
Record t := mk {
  well_id : string;
  buckets : Py.dict (list ManifestNode.t);
  bucket_counts : option (Py.dict Z);
  foreign_ref : option (list string)
}.
End Manifest.

Module FileEntry.
Record t := mk {
  type : EntryType;
  well_key : string;
  well_id : string;
  bucket : string;
  path : string;
  filename : string;
  tags : list string
}.
End FileEntry.

Module WellSummary.
Record t := mk {
  well_key : string;
  well_id : string;
  bucket_counts : Py.dict Z;
  total_files : Z;
  foreign_reference_count : Z
}.
End WellSummary.

Module SearchResponse.
Record t := mk {
  query : string;
  filters : option string * option string;  (* well_key, bucket *)
  total : Z;
  offset : Z;
  limit : Z;
  results : list FileEntry.t
}.
End SearchResponse.

(** The body of the bucket listing endpoint's answer. *)
Module BucketFilesResponse.
Record t := mk {
  well_key : string;
  bucket : string;
  total : Z;
  offset : Z;
  limit : Z;
  files : list FileEntry.t
}.
End BucketFilesResponse.

Module HealthResponse.
Record t := mk {
  wells_loaded : Z;
  manifests_loaded : Z;
  source_dir : string
}.
End HealthResponse.

Module WellsResponse.
Record t := mk {
  count : Z;
  wells : list string
}.
End WellsResponse.

Module SummaryListResponse.
Record t := mk {
  total : Z;
  offset : Z;
  limit : Z;
  count : Z;
  wells : list WellSummary.t
}.
End SummaryListResponse.

(** The body of the bucket names endpoint's answer. *)
Module BucketsResponse.
Record t := mk {
  well_key : string;
  buckets : list string
}.
End BucketsResponse.

(** The body of the foreign references endpoint's answer. *)
Module ForeignReferencesResponse.
Record t := mk {
  well_key : string;
  count : Z;
  references : list string
}.
End ForeignReferencesResponse.

(** What an endpoint gives back: a body, or [HTTPException(status, detail)]. *)
Inductive response (A : Type) :=
| Ok (body : A)
| HTTPException (status_code : Z) (detail : string).
Arguments Ok {A} body.
Arguments HTTPException {A} status_code detail.

(* ===================================================================== *)
(** * [index.py]                                                          *)
(* ===================================================================== *)

Module SearchHit.
Record t := mk {
  type : EntryType;
  well_key : string;
  well_id : string;
  bucket : string;
  path : string;
  filename : string;
  tags : list string
}.
End SearchHit.

Module Index.

(** [_split_tags]: a list keeps its stripped non-empty elements; in a
    string every [","] becomes ["|"] and the result is split on ["|"].
    The last branch of the source ([str(tags).strip()] for any other
    value) is excluded by the type of [ManifestNode.tags]. *)
Definition _split_tags (tags : RawTags) : list string :=
  match tags with
  | TagsNone => []
  | TagsList l =>
      Py.strip <$> filter (λ t, Py.truthy (Py.strip t) = true) l
  | TagsStr s =>
      let parts := Py.strip <$> Py.split "|" (Py.replace "," "|" s) in
      filter (λ p, Py.truthy p = true) parts
  end.

(** [_filename_from_path]: [PurePosixPath(path).name], the last component
    of the path that is neither empty nor ["."], or the empty string when
    there is none. *)
Definition _filename_from_path (path : string) : string :=
  let parts :=
    filter (λ x, Py.truthy x = true ∧ x ≠ ".") (Py.split "/" path) in
  List.last parts EmptyString.

(** [x or y] on strings. *)
Definition str_or (x y : string) : string := if Py.truthy x then x else y.

(** The entries contributed by one bucket of one well. *)
Definition _build_bucket (well_key well_id bucket_name : string)
    (entries : list ManifestNode.t) : list SearchHit.t :=
  flat_map (λ e,
    let path := ManifestNode.path e in
    if negb (Py.truthy path) then []
    else
      [ SearchHit.mk (ManifestNode.type e) well_key well_id bucket_name path
          (str_or (ManifestNode.name e) (_filename_from_path path))
          (_split_tags (ManifestNode.tags e)) ]) entries.

Definition _build_well (well_key : string) (manifest : Manifest.t)
    : list SearchHit.t :=
  let well_id :=
    str_or (Manifest.well_id manifest) (Py.replace "_" "/" well_key) in
  flat_map (λ '(bucket_name, entries),
    _build_bucket well_key well_id bucket_name entries)
    (Manifest.buckets manifest).

(** [ManifestIndex._build]: wells, buckets and nodes in source order. *)
Definition _build (manifests : Py.dict Manifest.t) : list SearchHit.t :=
  flat_map (λ '(well_key, manifest), _build_well well_key manifest) manifests.

Record ManifestIndex := mkIndex {
  manifests : Py.dict Manifest.t;
  _wells_sorted : list string;
  _flat : list SearchHit.t
}.

(** [ManifestIndex.__init__] *)
Definition init (manifests : Py.dict Manifest.t) : ManifestIndex :=
  mkIndex manifests (Py.sorted (Py.keys manifests)) (_build manifests).

Definition wells (self : ManifestIndex) : list string := _wells_sorted self.

(** [d or {k: len(v) for k, v in buckets.items()}] *)
Definition counts_or (explicit : option (Py.dict Z))
    (buckets : Py.dict (list ManifestNode.t)) : Py.dict Z :=
  match explicit with
  | Some (c :: cs) => c :: cs
  | _ => (λ '(k, v), (k, Py.len v)) <$> buckets
  end.

(** [ManifestIndex.summary]; [None] is the [KeyError] of
    [self.manifests[well_key]]. *)
Definition summary (self : ManifestIndex) (well_key : string)
    : option WellSummary.t :=
  match Py.get (manifests self) well_key with
  | None => None
  | Some m =>
      let well_id := str_or (Manifest.well_id m) (Py.replace "_" "/" well_key) in
      let bucket_counts := counts_or (Manifest.bucket_counts m) (Manifest.buckets m) in
      let total_files := Py.sum (Py.values bucket_counts) in
      let foreign_count := Py.len (default [] (Manifest.foreign_ref m)) in
      Some (WellSummary.mk well_key well_id bucket_counts total_files foreign_count)
  end.

(** [ManifestIndex.buckets] *)
Definition buckets (self : ManifestIndex) (well_key : string)
    : option (list string) :=
  (λ m, Py.sorted (Py.keys (Manifest.buckets m))) <$> Py.get (manifests self) well_key.

(** [ManifestIndex.bucket_files]: a list comprehension over the flat
    index.  The caller tests the result against [None], so the result is
    an option here; the method has no path that returns [None]. *)
Definition bucket_files (self : ManifestIndex) (well_key bucket : string)
    : option (list SearchHit.t) :=
  Some (filter (λ h, SearchHit.well_key h = well_key ∧ SearchHit.bucket h = bucket)
          (_flat self)).

(** [ManifestIndex.foreign_refs] *)
Definition foreign_refs (self : ManifestIndex) (well_key : string)
    : option (list string) :=
  (λ m, default [] (Manifest.foreign_ref m)) <$> Py.get (manifests self) well_key.

(** [well_key and h.well_key != well_key]: an absent or empty filter
    rejects nothing. *)
Definition filter_rejects (flt : option string) (value : string) : bool :=
  match flt with
  | Some f => Py.truthy f && negb (bool_decide (value = f))
  | None => false
  end.

(** The inner function [hit] of [ManifestIndex.search]; [qn] is the
    stripped, lowered query. *)
Definition hit (qn : string) (well_key bucket : option string)
    (h : SearchHit.t) : bool :=
  if filter_rejects well_key (SearchHit.well_key h) then false
  else if filter_rejects bucket (SearchHit.bucket h) then false
  else if Py.contains qn (Py.lower (SearchHit.filename h)) then true
  else if Py.contains qn (Py.lower (SearchHit.path h)) then true
  else if Py.contains qn (Py.lower (SearchHit.bucket h)) then true
  else if Py.contains qn (Py.lower (SearchHit.well_key h)) then true
  else if Py.contains qn (Py.lower (SearchHit.well_id h)) then true
  else if existsb (λ t, Py.contains qn (Py.lower t)) (SearchHit.tags h) then true
  else
    let q_slash := Py.replace "_" "/" qn in
    if negb (bool_decide (q_slash = qn))
       && (Py.contains q_slash (Py.lower (SearchHit.well_id h))
           || Py.contains q_slash (Py.lower (SearchHit.path h)))
    then true
    else false.

(** [ManifestIndex.search]: the total and the page. *)
Definition search (self : ManifestIndex) (q : string)
    (well_key bucket : option string) (limit offset : Z)
    : Z * list SearchHit.t :=
  let qn := Py.lower (Py.strip q) in
  if negb (Py.truthy qn) then (0%Z, [])
  else
    let matches := filter (λ h, hit qn well_key bucket h = true) (_flat self) in
    let total := Py.len matches in
    let page := Py.slice matches offset (offset + limit) in
    (total, page).

End Index.


(* ===================================================================== *)
(** * [api.py]: the endpoints over a [ManifestIndex]                      *)
(* ===================================================================== *)

Module Api.

(** [_get_index]; the argument is the module variable [_INDEX]. *)
Definition _get_index (INDEX : option Index.ManifestIndex)
    : response Index.ManifestIndex :=
  match INDEX with
  | None => HTTPException 500 "Manifests not loaded"
  | Some idx => Ok idx
  end.

Definition _hit_to_entry (h : SearchHit.t) : FileEntry.t :=
  FileEntry.mk (SearchHit.type h) (SearchHit.well_key h) (SearchHit.well_id h)
    (SearchHit.bucket h) (SearchHit.path h) (SearchHit.filename h)
    (SearchHit.tags h).

(** The key [k] computed in the loop of [_dedupe_results]:
    [r.path if key == "path" else f"{r.well_key}::{r.filename}"]. *)
Definition dedupe_k (key : string) (r : FileEntry.t) : string :=
  if decide (key = "path") then FileEntry.path r
  else FileEntry.well_key r ++ "::" ++ FileEntry.filename r.

(** The loop of [_dedupe_results], with its two variables [seen] and [out]. *)
Fixpoint _dedupe_loop (key : string) (results : list FileEntry.t)
    (seen : gset string) (out : list FileEntry.t) : list FileEntry.t :=
  match results with
  | [] => out
  | r :: rest =>
      let k := dedupe_k key r in
      if decide (k ∈ seen) then _dedupe_loop key rest seen out
      else _dedupe_loop key rest ({[k]} ∪ seen) (out ++ [r])
  end.

Definition _dedupe_results (results : list FileEntry.t) (key : string)
    : list FileEntry.t :=
  _dedupe_loop key results ∅ [].

(** What [search], [search_in_well] and the two CSV endpoints share: the
    full result set of the index, directories dropped unless asked for,
    then deduplication. *)
Definition search_results (idx : Index.ManifestIndex) (q : string)
    (well_key bucket : option string) (include_dirs dedupe : bool)
    (dedupe_key : string) : list FileEntry.t :=
  let '(total_hits, hits) := Index.search idx q well_key bucket 999999 0 in
  let results :=
    _hit_to_entry <$>
      filter (λ h, include_dirs = true ∨ SearchHit.type h ≠ directory) hits in
  if dedupe then _dedupe_results results dedupe_key else results.

(** [GET /search].  The signature bounds the parameters ([q] of length at
    least 1, [1 <= limit <= 5000], [0 <= offset], [dedupe_key] one of
    ["path"] and ["filename"]); a request outside them is answered by the
    framework and never reaches this body. *)
Definition search (INDEX : option Index.ManifestIndex) (q : string)
    (well_key bucket : option string) (limit offset : Z)
    (include_dirs dedupe : bool) (dedupe_key : string)
    : response SearchResponse.t :=
  match _get_index INDEX with
  | HTTPException c d => HTTPException c d
  | Ok idx =>
      let results :=
        search_results idx q well_key bucket include_dirs dedupe dedupe_key in
      let total := Py.len results in
      let page := Py.slice results offset (offset + limit) in
      Ok (SearchResponse.mk q (well_key, bucket) total offset limit page)
  end.

(** [GET /wells/{well_key}/summary] *)
Definition well_summary (INDEX : option Index.ManifestIndex)
    (well_key : string) : response WellSummary.t :=
  match _get_index INDEX with
  | HTTPException c d => HTTPException c d
  | Ok idx =>
      if negb (Py.mem well_key (Index.manifests idx))
      then HTTPException 404 "Unknown well_key"
      else match Index.summary idx well_key with
           | Some s => Ok s
           | None => HTTPException 500 "KeyError"
           end
  end.

(** [GET /wells/{well_key}/buckets/{bucket_name}] *)
Definition bucket_files (INDEX : option Index.ManifestIndex)
    (well_key bucket_name : string) (limit offset : Z)
    : response BucketFilesResponse.t :=
  match _get_index INDEX with
  | HTTPException c d => HTTPException c d
  | Ok idx =>
      if negb (Py.mem well_key (Index.manifests idx))
      then HTTPException 404 "Unknown well_key"
      else
        match Index.bucket_files idx well_key bucket_name with
        | None => HTTPException 404 "Unknown bucket for this well"
        | Some hits =>
            let total := Py.len hits in
            let page :=
              _hit_to_entry <$> Py.slice hits offset (offset + limit) in
            Ok (BucketFilesResponse.mk well_key bucket_name total offset limit page)
        end
  end.

(** [GET /health]; the second argument is the module variable
    [_SOURCE_DIR].  The status field is the constant ["ok"]. *)
Definition health (INDEX : option Index.ManifestIndex) (SOURCE_DIR : string)
    : HealthResponse.t :=
  let count :=
    match INDEX with
    | Some idx => Py.len (Index.manifests idx)
    | None => 0%Z
    end in
  HealthResponse.mk count count SOURCE_DIR.

(** [GET /wells] *)
Definition list_wells (INDEX : option Index.ManifestIndex)
    : response WellsResponse.t :=
  match _get_index INDEX with
  | HTTPException c d => HTTPException c d
  | Ok idx =>
      let wells := Index.wells idx in
      Ok (WellsResponse.mk (Py.len wells) wells)
  end.

(** [GET /summary]: one summary per key of the page; a key without
    manifest would be the [KeyError] of [idx.summary]. *)
Definition summary (INDEX : option Index.ManifestIndex) (limit offset : Z)
    : response SummaryListResponse.t :=
  match _get_index INDEX with
  | HTTPException c d => HTTPException c d
  | Ok idx =>
      let wells := Index.wells idx in
      let total := Py.len wells in
      let page_keys := Py.slice wells offset (offset + limit) in
      match mapM (Index.summary idx) page_keys with
      | Some summaries =>
          Ok (SummaryListResponse.mk total offset limit (Py.len summaries)
                summaries)
      | None => HTTPException 500 "KeyError"
      end
  end.

(** [GET /wells/{well_key}/buckets] *)
Definition well_buckets (INDEX : option Index.ManifestIndex)
    (well_key : string) : response BucketsResponse.t :=
  match _get_index INDEX with
  | HTTPException c d => HTTPException c d
  | Ok idx =>
      if negb (Py.mem well_key (Index.manifests idx))
      then HTTPException 404 "Unknown well_key"
      else match Index.buckets idx well_key with
           | Some bs => Ok (BucketsResponse.mk well_key bs)
           | None => HTTPException 500 "KeyError"
           end
  end.

(** [GET /wells/{well_key}/foreign-references] *)
Definition foreign_references (INDEX : option Index.ManifestIndex)
    (well_key : string) : response ForeignReferencesResponse.t :=
  match _get_index INDEX with
  | HTTPException c d => HTTPException c d
  | Ok idx =>
      if negb (Py.mem well_key (Index.manifests idx))
      then HTTPException 404 "Unknown well_key"
      else match Index.foreign_refs idx well_key with
           | Some refs =>
               Ok (ForeignReferencesResponse.mk well_key (Py.len refs) refs)
           | None => HTTPException 500 "KeyError"
           end
  end.

(** [GET /wells/{well_key}/search] *)
Definition search_in_well (INDEX : option Index.ManifestIndex)
    (well_key q : string) (bucket : option string) (limit offset : Z)
    (include_dirs dedupe : bool) (dedupe_key : string)
    : response SearchResponse.t :=
  match _get_index INDEX with
  | HTTPException c d => HTTPException c d
  | Ok idx =>
      if negb (Py.mem well_key (Index.manifests idx))
      then HTTPException 404 "Unknown well_key"
      else
        let results :=
          search_results idx q (Some well_key) bucket include_dirs dedupe
            dedupe_key in
        let total := Py.len results in
        let page := Py.slice results offset (offset + limit) in
        Ok (SearchResponse.mk q (Some well_key, bucket) total offset limit page)
  end.

End Api.

(* ===================================================================== *)
(** * [volve_query/api.py]: the older endpoints over the manifest mapping *)
(* ===================================================================== *)

Module LegacyApi.

(** [_split_tags]: a list keeps its non-blank elements as they are; a
    stripped string is split on ["|"] when it has one, else on [","]. *)
Definition _split_tags (raw : RawTags) : list string :=
  match raw with
  | TagsNone => []
  | TagsList l => filter (λ x, Py.truthy (Py.strip x) = true) l
  | TagsStr raw =>
      let s := Py.strip raw in
      if negb (Py.truthy s) then []
      else
        let parts :=
          if Py.has_char "|" s then Py.strip <$> Py.split "|" s
          else if Py.has_char "," s then Py.strip <$> Py.split "," s
          else [s] in
        filter (λ p, Py.truthy p = true) parts
  end.

(** [_ensure_loaded]; the argument is the module variable [_MANIFESTS]. *)
Definition _ensure_loaded (MANIFESTS : Py.dict Manifest.t) : response unit :=
  match MANIFESTS with
  | [] => HTTPException 500 "Manifests not loaded"
  | _ => Ok ()
  end.

Definition _bucket_counts (m : Manifest.t) : Py.dict Z :=
  (λ '(b, nodes), (b, Py.len nodes)) <$> Manifest.buckets m.

(** [_foreign_ref_count]: the list of the manifest when it has one, else
    the nodes' lists, counted in the two nested loops of the source. *)
Definition _foreign_ref_count (m : Manifest.t) : Z :=
  match Manifest.foreign_ref m with
  | Some refs => Py.len refs
  | None =>
      foldl (λ count nodes,
        foldl (λ count n,
          match ManifestNode.foreign_ref_wells n with
          | [] => count
          | refs => (count + Py.len refs)%Z
          end) count nodes)
        0%Z (Py.values (Manifest.buckets m))
  end.

(** [_iter_entries], the generator read out into a list. *)
Definition _iter_entries (MANIFESTS : Py.dict Manifest.t) (q : string)
    (well_key bucket : option string) (include_dirs : bool)
    : list FileEntry.t :=
  let q_l := Py.strip (Py.lower q) in
  flat_map (λ '(wk, m),
    if Index.filter_rejects well_key wk then []
    else
      flat_map (λ '(bname, nodes),
        if Index.filter_rejects bucket bname then []
        else
          flat_map (λ n,
            if negb include_dirs && bool_decide (ManifestNode.type n = directory)
            then []
            else
              let filename := ManifestNode.name n in
              let path := ManifestNode.path n in
              let tags_list := _split_tags (ManifestNode.tags n) in
              let hay :=
                Py.lower (Py.join " "
                  [wk; Manifest.well_id m; bname; filename; path;
                   Py.join " " tags_list]) in
              if Py.truthy q_l && negb (Py.contains q_l hay) then []
              else
                [FileEntry.mk (ManifestNode.type n) wk (Manifest.well_id m)
                   bname path filename tags_list]) nodes)
        (Manifest.buckets m)) MANIFESTS.

(** The same text as [_dedupe_results] of [api.py]. *)
Definition _dedupe_results := Api._dedupe_results.

(** [GET /search] *)
Definition search (MANIFESTS : Py.dict Manifest.t) (q : string)
    (well_key bucket : option string) (limit offset : Z)
    (include_dirs dedupe : bool) (dedupe_key : string)
    : response SearchResponse.t :=
  match _ensure_loaded MANIFESTS with
  | HTTPException c d => HTTPException c d
  | Ok _ =>
      let all_results := _iter_entries MANIFESTS q well_key bucket include_dirs in
      let all_results :=
        if dedupe then _dedupe_results all_results dedupe_key else all_results in
      let total := Py.len all_results in
      let page := Py.slice all_results offset (offset + limit) in
      Ok (SearchResponse.mk q (well_key, bucket) total offset limit page)
  end.

(** [GET /wells/{well_key}/buckets/{bucket_name}]; [if not m] also holds
    for no manifest at all, a manifest object being always true. *)
Definition bucket_files (MANIFESTS : Py.dict Manifest.t)
    (well_key bucket_name : string) (limit offset : Z)
    : response BucketFilesResponse.t :=
  match _ensure_loaded MANIFESTS with
  | HTTPException c d => HTTPException c d
  | Ok _ =>
      match Py.get MANIFESTS well_key with
      | None => HTTPException 404 "Unknown well_key"
      | Some m =>
          match Py.get (Manifest.buckets m) bucket_name with
          | None => HTTPException 404 "Unknown bucket for this well"
          | Some nodes =>
              let total := Py.len nodes in
              let page := Py.slice nodes offset (offset + limit) in
              let files :=
                (λ n, FileEntry.mk (ManifestNode.type n) well_key
                        (Manifest.well_id m) bucket_name (ManifestNode.path n)
                        (ManifestNode.name n) (_split_tags (ManifestNode.tags n)))
                <$> page in
              Ok (BucketFilesResponse.mk well_key bucket_name total offset limit files)
          end
      end
  end.

End LegacyApi.


(* ===================================================================== *)
(** * [volve_query/loader.py]                                             *)
(* ===================================================================== *)

Module Loader.

(** What [_read_json] makes of a file: [path.open] fails, the bytes of the
    file are not UTF-8, the text is not JSON, or it is a JSON value, of
    which only the outcome of [Manifest.model_validate] matters here. *)
Inductive FileContent :=
| NotJson
| Json (validated : option Manifest.t)
| NotUtf8
| Unopenable.

(** A node of the file system below the wells directory. *)
#[warnings="-register-all"]
Inductive FsNode :=
| FsFile (content : FileContent)
| FsDir (children : list (string * FsNode)).

Definition is_dir (n : FsNode) : bool :=
  match n with FsDir _ => true | FsFile _ => false end.

Definition is_file (n : FsNode) : bool :=
  match n with FsFile _ => true | FsDir _ => false end.

Inductive LoadError :=
| FileNotFoundError
| NotADirectoryError
| JSONDecodeError
| ValidationError
| RuntimeError
| UnicodeDecodeError
| OSError.

(** A file opened by the loader: [wells_dir/dir/file] or [wells_dir/file]. *)
Inductive Opened :=
| InWellDir (dir file : string)
| InBase (file : string).

(** The loader computes a value or raises, and opens files on the way: a
    computation takes the list of the files opened so far and gives it back
    extended, next to its outcome. *)
Definition io (A : Type) : Type :=
  list Opened → (LoadError + A) * list Opened.

Definition ret {A} (a : A) : io A := λ opened, (inr a, opened).

Definition raise {A} (e : LoadError) : io A := λ opened, (inl e, opened).

Definition bind {A B} (k : A → io B) (c : io A) : io B :=
  λ opened,
    match c opened with
    | (inl e, opened') => (inl e, opened')
    | (inr a, opened') => k a opened'
    end.

#[global] Instance io_ret : MRet io := @ret.
#[global] Instance io_bind : MBind io := @bind.

(** [_read_json(path)]: opens the file as UTF-8 text, then reads and
    parses it.  A file that cannot be opened is not among the files
    opened. *)
Definition _read_json (path : Opened) (content : FileContent)
    : io (option Manifest.t) :=
  λ opened,
    match content with
    | Unopenable => (inl OSError, opened)
    | NotUtf8 => (inl UnicodeDecodeError, opened ++ [path])
    | NotJson => (inl JSONDecodeError, opened ++ [path])
    | Json data => (inr data, opened ++ [path])
    end.

(** [Manifest.model_validate(data)] *)
Definition model_validate (data : option Manifest.t) : io Manifest.t :=
  match data with
  | Some m => ret m
  | None => raise ValidationError
  end.

(** [sorted] on paths of one directory: by name. *)
Definition sorted_by_name (l : list (string * FsNode)) : list (string * FsNode) :=
  merge_sort (λ a b, String.le a.1 b.1) l.

(** [p.glob("*.json")] restricted to files, content kept. *)
Definition glob_json_files (children : list (string * FsNode))
    : list (string * FsNode) :=
  filter (λ p, Py.endswith ".json" p.1 = true ∧ is_file p.2 = true) children.

Definition preferred : list string :=
  [ "manifest.json"; "manifest.normalized.json"; "normalized_manifest.json";
    "manifest_normalized.json"; "index.json" ].

(** The first loop of [_find_manifest_json_in_well_dir]. *)
Fixpoint find_preferred (names : list string) (children : list (string * FsNode))
    : option (string * FsNode) :=
  match names with
  | [] => None
  | name :: names' =>
      match Py.get children name with
      | Some (FsFile c) => Some (name, FsFile c)
      | _ => find_preferred names' children
      end
  end.

Definition _find_manifest_json_in_well_dir (children : list (string * FsNode))
    : option (string * FsNode) :=
  match find_preferred preferred children with
  | Some p => Some p
  | None => head (sorted_by_name (glob_json_files children))
  end.

Definition _normalize_loaded_key (folder_name : string) (manifest : Manifest.t)
    : string :=
  if Py.truthy folder_name && Py.truthy (Py.strip folder_name)
  then Py.strip folder_name
  else Py.strip (Py.replace "/" "_" (Manifest.well_id manifest)).

(** [s.rfind(a)] for a one-character [a]. *)
Fixpoint rfind (a : ascii) (s : string) : option nat :=
  match s with
  | EmptyString => None
  | String c s' =>
      match rfind a s' with
      | Some i => Some (S i)
      | None => if decide (c = a) then Some 0 else None
      end
  end.

(** [PurePath.stem] of a file name. *)
Definition stem (name : string) : string :=
  match rfind "." name with
  | Some i =>
      if bool_decide (0 < i ∧ i < String.length name - 1)
      then String.substring 0 i name else name
  | None => name
  end.

Definition content_of (n : FsNode) : FileContent :=
  match n with FsFile c => c | FsDir _ => NotJson end.

Definition children_of (n : FsNode) : list (string * FsNode) :=
  match n with FsDir cs => cs | FsFile _ => [] end.

(** The loop of case A over the sorted subdirectories. *)
Fixpoint load_subdirs (subdirs : list (string * FsNode))
    (manifests : Py.dict Manifest.t) : io (Py.dict Manifest.t) :=
  match subdirs with
  | [] => ret manifests
  | (dir_name, well_dir) :: rest =>
      match _find_manifest_json_in_well_dir (children_of well_dir) with
      | None => load_subdirs rest manifests
      | Some (file_name, node) =>
          data ← _read_json (InWellDir dir_name file_name) (content_of node);
          m ← model_validate data;
          let well_key := _normalize_loaded_key dir_name m in
          load_subdirs rest (Py.set manifests well_key m)
      end
  end.

(** The loop of case B over the sorted JSON files of the directory. *)
Fixpoint load_json_files (json_files : list (string * FsNode))
    (manifests : Py.dict Manifest.t) : io (Py.dict Manifest.t) :=
  match json_files with
  | [] => ret manifests
  | (file_name, node) :: rest =>
      data ← _read_json (InBase file_name) (content_of node);
      m ← model_validate data;
      let well_key := stem file_name in
      load_json_files rest (Py.set manifests well_key m)
  end.

(** Case B and the end of [load_manifests_from_wells_dir]. *)
Definition case_b (children : list (string * FsNode))
    (manifests : Py.dict Manifest.t) : io (Py.dict Manifest.t) :=
  let json_files := sorted_by_name (glob_json_files children) in
  manifests ← load_json_files json_files manifests;
  match manifests with
  | [] => raise RuntimeError
  | _ => ret manifests
  end.

(** [load_manifests_from_wells_dir]; the argument is what the path
    [wells_dir] names in the file system, if anything. *)
Definition load_manifests_from_wells_dir (base : option FsNode)
    : io (Py.dict Manifest.t) :=
  match base with
  | None => raise FileNotFoundError
  | Some (FsFile _) => raise NotADirectoryError
  | Some (FsDir children) =>
      let manifests : Py.dict Manifest.t := [] in
      let subdirs := sorted_by_name (filter (λ p, is_dir p.2 = true) children) in
      match subdirs with
      | [] => case_b children manifests
      | _ =>
          manifests ← load_subdirs subdirs manifests;
          match manifests with
          | [] => case_b children manifests
          | _ => ret manifests
          end
      end
  end.

(** Running the loader from an empty log. *)
Definition run {A} (c : io A) : (LoadError + A) * list Opened := c [].

(** [load_all_manifests], the alias kept for older callers. *)
Definition load_all_manifests (base : option FsNode)
    : io (Py.dict Manifest.t) :=
  load_manifests_from_wells_dir base.

End Loader.

(* ===================================================================== *)
(** * [api.py]: start-up                                                  *)
(* ===================================================================== *)

Module App.

(** The two module variables of [api.py]. *)
Record state := mkState {
  _INDEX : option Index.ManifestIndex;
  _SOURCE_DIR : string
}.

(** The state of the module when it is imported. *)
Definition initial : state := mkState None "wells".

(** [init_app(wells_dir)]; [base] is what the path names in the file
    system.  [_SOURCE_DIR] is assigned before the loader runs, [_INDEX]
    after it has returned: an exception of the loader leaves the former
    index in place. *)
Definition init_app (st : state) (wells_dir : string)
    (base : option Loader.FsNode) : (Loader.LoadError + unit) * state :=
  let st := mkState (_INDEX st) wells_dir in
  match (Loader.run (Loader.load_manifests_from_wells_dir base)).1 with
  | inl e => (inl e, st)
  | inr manifests =>
      (inr (), mkState (Some (Index.init manifests)) (_SOURCE_DIR st))
  end.

End App.


(* ===================================================================== *)
(** * The specification's own wording of the operations                   *)
(* ===================================================================== *)

Module Spec.

(** Section 4.1: a string is split on ["|"] first and, if there is none,
    on [","]; every piece is trimmed and the empty ones are dropped. *)
Definition normalize_tags (raw : RawTags) : list string :=
  match raw with
  | TagsNone => []
  | TagsList l => filter (λ t, t ≠ EmptyString) (Py.strip <$> l)
  | TagsStr s =>
      let pieces :=
        if Py.has_char "|" s then Py.split "|" s else Py.split "," s in
      filter (λ t, t ≠ EmptyString) (Py.strip <$> pieces)
  end.

(** Section 4.4, text match rule, first part: the lowered query [qn] is
    contained in the lowered file name, path, bucket name, well key, well
    id, or one of the tags. *)
Definition plain_match (qn : string) (h : SearchHit.t) : bool :=
  Py.contains qn (Py.lower (SearchHit.filename h))
  || Py.contains qn (Py.lower (SearchHit.path h))
  || Py.contains qn (Py.lower (SearchHit.bucket h))
  || Py.contains qn (Py.lower (SearchHit.well_key h))
  || Py.contains qn (Py.lower (SearchHit.well_id h))
  || existsb (λ t, Py.contains qn (Py.lower t)) (SearchHit.tags h).

(** Second part: when [qn] has an underscore, its candidate with ["/"] for
    every ["_"], if it differs from [qn], is looked for in the lowered well
    id and path. *)
Definition slash_match (qn : string) (h : SearchHit.t) : bool :=
  Py.has_char "_" qn
  && let candidate := Py.replace "_" "/" qn in
     negb (bool_decide (candidate = qn))
     && (Py.contains candidate (Py.lower (SearchHit.well_id h))
         || Py.contains candidate (Py.lower (SearchHit.path h))).

Definition text_match (qn : string) (h : SearchHit.t) : bool :=
  plain_match qn h || slash_match qn h.

(** An equality filter on one field, applied if given. *)
Definition equality_filter (given : option string)
    (field : SearchHit.t → string) (l : list SearchHit.t) : list SearchHit.t :=
  match given with
  | Some k => filter (λ h, field h = k) l
  | None => l
  end.

(** Section 4.4, filters (1) to (4) in the order of the text, over the
    flat index. *)
Definition filtered (flat : list SearchHit.t) (qn : string)
    (well_key bucket : option string) (include_dirs : bool)
    : list SearchHit.t :=
  let step1 :=
    filter (λ h, include_dirs = true ∨ SearchHit.type h ≠ directory) flat in
  let step2 := equality_filter well_key SearchHit.well_key step1 in
  let step3 := equality_filter bucket SearchHit.bucket step2 in
  filter (λ h, text_match qn h = true) step3.

(** Section 4.4, deduplication: the element at position [i] stays exactly
    when no element before it has its key. *)
Definition first_occurrences {A K} `{EqDecision K} (key : A → K)
    (l : list A) : list A :=
  omap (λ '(i, x), if decide (key x ∈ key <$> take i l) then None else Some x)
       (imap pair l).

(** The pair that the text names as the key for [dedupeKey = filename]. *)
Definition filename_key (r : FileEntry.t) : string * string :=
  (FileEntry.well_key r, FileEntry.filename r).

(** Section 4.4, deduplication: the first occurrence per key, the key being
    the entry's path when [dedupeKey = path] and the pair (well key, file
    name) when [dedupeKey = filename]. *)
Definition deduplicated (dedupe_key : string) (entries : list FileEntry.t)
    : list FileEntry.t :=
  if decide (dedupe_key = "path")
  then first_occurrences FileEntry.path entries
  else first_occurrences filename_key entries.

(** Section 4.4, result contract: the final ordered list, the filtered
    entries, deduplicated if [dedupe] is set. *)
Definition final_list (flat : list SearchHit.t) (q : string)
    (well_key bucket : option string) (include_dirs dedupe : bool)
    (dedupe_key : string) : list FileEntry.t :=
  let entries :=
    Api._hit_to_entry <$>
      filtered flat (Py.lower (Py.strip q)) well_key bucket include_dirs in
  if dedupe then deduplicated dedupe_key entries else entries.

(** Section 4.5: the slice [offset, offset + limit) clamped to the list. *)
Definition paginate {A} (l : list A) (offset limit : Z) : list A :=
  take (Z.to_nat limit) (drop (Z.to_nat offset) l).

(** Section 4.3: the foreign reference count. *)
Definition foreign_reference_count (m : Manifest.t) : Z :=
  match Manifest.foreign_ref m with
  | Some refs => Py.len refs
  | None =>
      Py.sum ((λ n, Py.len (ManifestNode.foreign_ref_wells n))
              <$> concat (Py.values (Manifest.buckets m)))
  end.

End Spec.

(** The recursion behind [Spec.first_occurrences]: [earlier] holds the keys
    of the elements already passed. *)
Fixpoint first_occ_from {A K} `{EqDecision K} (key : A → K)
    (earlier : list K) (l : list A) : list A :=
  match l with
  | [] => []
  | x :: l' =>
      (if decide (key x ∈ earlier) then [] else [x])
      ++ first_occ_from key (earlier ++ [key x]) l'
  end.

(* ===================================================================== *)
(** * Examples used below                                                 *)
(* ===================================================================== *)

Module Ex.

(** The node of the specification's example, with one foreign reference. *)
Definition node_b : ManifestNode.t :=
  ManifestNode.mk "a/b.txt" "b.txt" file EmptyString EmptyString
    (TagsStr "X|Y") ["B"].

(** Well ["A"]: one bucket ["docs"] with [node_b], no explicit counts, no
    per-well foreign reference list. *)
Definition manifest_a : Manifest.t :=
  Manifest.mk "15/9-F-9A" [("docs", [node_b])] None None.

Definition manifests : Py.dict Manifest.t := [("A", manifest_a)].

Definition index : Index.ManifestIndex := Index.init manifests.

Definition hit_b : SearchHit.t :=
  SearchHit.mk file "A" "15/9-F-9A" "docs" "a/b.txt" "b.txt" ["X"; "Y"].

Definition entry_b : FileEntry.t := Api._hit_to_entry hit_b.

(** Two entries whose keys [well_key::filename] coincide although the
    pairs (well key, file name) differ. *)
Definition entry_1 : FileEntry.t :=
  FileEntry.mk file "a::b" "W1" "docs" "p/1" "c" [].
Definition entry_2 : FileEntry.t :=
  FileEntry.mk file "a" "W2" "docs" "p/2" "b::c" [].

Definition manifest_other : Manifest.t :=
  Manifest.mk "15/9-F-1" [] None None.

(** Two wells whose entries get the same key [well_key::filename]. *)
Definition manifests_colliding : Py.dict Manifest.t :=
  [ ("a::b", Manifest.mk "W1"
       [("docs", [ManifestNode.mk "p/1" "c" file EmptyString EmptyString
                    TagsNone []])] None None);
    ("a", Manifest.mk "W2"
       [("docs", [ManifestNode.mk "p/2" "b::c" file EmptyString EmptyString
                    TagsNone []])] None None) ].

(** A well with one bucket of [n] copies of [node_b]. *)
Definition manifests_of_size (n : nat) : Py.dict Manifest.t :=
  [("A", Manifest.mk "15/9-F-9A" [("docs", replicate n node_b)] None None)].

(** A wells directory with an empty subdirectory and a JSON file. *)
Definition children_fallback : list (string * Loader.FsNode) :=
  [ ("empty", Loader.FsDir []);
    ("W.json", Loader.FsFile (Loader.Json (Some manifest_a))) ].

(** Two well directories whose names differ by a trailing space. *)
Definition children_same_key : list (string * Loader.FsNode) :=
  [ ("A", Loader.FsDir
       [("manifest.json", Loader.FsFile (Loader.Json (Some manifest_a)))]);
    ("A ", Loader.FsDir
       [("manifest.json", Loader.FsFile (Loader.Json (Some manifest_other)))]) ].

(** A directory with a blank name, whose key comes from the well id, next
    to the directory of that name. *)
Definition children_derived_key : list (string * Loader.FsNode) :=
  [ (" ", Loader.FsDir
       [("manifest.json", Loader.FsFile (Loader.Json (Some manifest_other)))]);
    ("15_9-F-1", Loader.FsDir
       [("manifest.json", Loader.FsFile (Loader.Json (Some manifest_a)))]) ].

End Ex.


(* ===================================================================== *)
(** * Facts about the built-ins                                           *)
(* ===================================================================== *)

Section PyFacts.

Lemma truthy_true s : Py.truthy s = true ↔ s ≠ EmptyString.
Proof. destruct s; simpl; split; intros; congruence. Qed.

Lemma truthy_false s : Py.truthy s = false ↔ s = EmptyString.
Proof. destruct s; simpl; split; intros; congruence. Qed.

Lemma lower_empty s : Py.lower s = EmptyString ↔ s = EmptyString.
Proof. destruct s; simpl; split; intros; congruence. Qed.

Lemma rstrip_cons_nonspace c s :
  Py.isspace c = false → Py.rstrip (String c s) = String c (Py.rstrip s).
Proof. intros Hc. simpl. destruct (Py.rstrip s); rewrite ?Hc; reflexivity. Qed.

Lemma rstrip_idem s : Py.rstrip (Py.rstrip s) = Py.rstrip s.
Proof.
  induction s as [|c s IH]; [reflexivity|]. simpl.
  destruct (Py.rstrip s) as [|d r] eqn:E.
  - destruct (Py.isspace c) eqn:Hc; [reflexivity|]. simpl. rewrite Hc. reflexivity.
  - change (Py.rstrip (String c (String d r))) with
      (match Py.rstrip (String d r) with
       | EmptyString => if Py.isspace c then EmptyString else String c EmptyString
       | r' => String c r'
       end).
    rewrite IH. reflexivity.
Qed.

Lemma lstrip_head s :
  Py.lstrip s = EmptyString
  ∨ ∃ c r, Py.lstrip s = String c r ∧ Py.isspace c = false.
Proof.
  induction s as [|c s IH]; [left; reflexivity|]. simpl.
  destruct (Py.isspace c) eqn:Hc; [exact IH|]. right. eauto.
Qed.

Lemma lstrip_nonspace c s :
  Py.isspace c = false → Py.lstrip (String c s) = String c s.
Proof. intros Hc. simpl. rewrite Hc. reflexivity. Qed.

(** A stripped string is its own strip. *)
Lemma strip_idem s : Py.strip (Py.strip s) = Py.strip s.
Proof.
  unfold Py.strip. destruct (lstrip_head s) as [->|(c & r & -> & Hc)];
    [reflexivity|].
  rewrite (rstrip_cons_nonspace _ _ Hc), (lstrip_nonspace _ _ Hc).
  rewrite <- (rstrip_cons_nonspace _ _ Hc). apply rstrip_idem.
Qed.

Lemma replace_absent a b s : Py.has_char a s = false → Py.replace a b s = s.
Proof.
  induction s as [|c s IH]; [reflexivity|]. simpl.
  destruct (decide (c = a)); [discriminate|]. intros H. rewrite IH; done.
Qed.

Lemma replace_present a b s :
  a ≠ b → Py.has_char a s = true → Py.replace a b s ≠ s.
Proof.
  intros Hab. induction s as [|c s IH]; [discriminate|]. simpl.
  destruct (decide (c = a)) as [->|Hc]; intros H E; injection E; intros.
  - congruence.
  - apply IH; assumption.
Qed.

(** Once every [a] has become [sep], splitting on [sep] cuts at the places
    where splitting on [a] did, if there was no [sep] before. *)
Lemma split_replace a sep s :
  Py.has_char sep s = false →
  Py.split sep (Py.replace a sep s) = Py.split a s.
Proof.
  induction s as [|c s IH]; [reflexivity|]. simpl.
  destruct (decide (c = sep)) as [->|Hsep]; [discriminate|]. intros H.
  specialize (IH H).
  destruct (decide (c = a)) as [->|Ha].
  - rewrite decide_True by reflexivity. rewrite IH. reflexivity.
  - rewrite decide_False by assumption. rewrite IH. reflexivity.
Qed.

Lemma split_absent sep s : Py.has_char sep s = false → Py.split sep s = [s].
Proof.
  induction s as [|c s IH]; [reflexivity|]. simpl.
  destruct (decide (c = sep)); [discriminate|]. intros H. rewrite IH; done.
Qed.

Lemma lower_char_underscore c :
  Py.lower_char c = "_"%char ↔ c = "_"%char.
Proof.
  destruct c as [[] [] [] [] [] [] [] []]; vm_compute; split; congruence.
Qed.

Lemma isspace_underscore c : Py.isspace c = true → c ≠ "_"%char.
Proof. intros H ->. vm_compute in H. discriminate. Qed.

Lemma has_char_lower_underscore s :
  Py.has_char "_" (Py.lower s) = Py.has_char "_" s.
Proof.
  induction s as [|c s IH]; [reflexivity|]. simpl. rewrite IH.
  destruct (decide (c = "_"%char)) as [->|Hc]; [reflexivity|].
  rewrite decide_False; [reflexivity|]. by rewrite lower_char_underscore.
Qed.

Lemma has_char_lstrip_underscore s :
  Py.has_char "_" (Py.lstrip s) = Py.has_char "_" s.
Proof.
  induction s as [|c s IH]; [reflexivity|]. simpl.
  destruct (Py.isspace c) eqn:Hc; [|reflexivity].
  rewrite decide_False by (by apply isspace_underscore). exact IH.
Qed.

Lemma has_char_rstrip_underscore s :
  Py.has_char "_" (Py.rstrip s) = Py.has_char "_" s.
Proof.
  induction s as [|c s IH]; [reflexivity|]. simpl.
  destruct (Py.rstrip s) as [|d r] eqn:E.
  - destruct (Py.isspace c) eqn:Hc.
    + rewrite decide_False by (by apply isspace_underscore).
      rewrite <- IH. reflexivity.
    + simpl. rewrite <- IH. reflexivity.
  - change (Py.has_char "_" (String c (String d r))) with
      (if decide (c = "_"%char) then true else Py.has_char "_" (String d r)).
    rewrite IH. reflexivity.
Qed.

(** Stripping and lowering keep the underscores of a query. *)
Lemma has_char_normalized_underscore q :
  Py.has_char "_" (Py.lower (Py.strip q)) = Py.has_char "_" q.
Proof.
  unfold Py.strip.
  by rewrite has_char_lower_underscore, has_char_rstrip_underscore,
    has_char_lstrip_underscore.
Qed.

Lemma lower_char_replace_underscore c :
  Py.lower_char (if decide (c = "_"%char) then "/"%char else c)
  = if decide (Py.lower_char c = "_"%char) then "/"%char else Py.lower_char c.
Proof.
  destruct (decide (c = "_"%char)) as [->|Hc]; [reflexivity|].
  rewrite decide_False; [reflexivity|]. by rewrite lower_char_underscore.
Qed.

(** Lowering and replacing underscores commute. *)
Lemma replace_lower s :
  Py.replace "_" "/" (Py.lower s) = Py.lower (Py.replace "_" "/" s).
Proof.
  induction s as [|c s IH]; [reflexivity|]. simpl.
  rewrite IH, lower_char_replace_underscore. reflexivity.
Qed.

Lemma slice_from_zero {A} (l : list A) (offset limit : Z) :
  (0 ≤ offset)%Z → (0 ≤ limit)%Z →
  Py.slice l offset (offset + limit) = Spec.paginate l offset limit.
Proof.
  intros Ho Hl. unfold Py.slice, Spec.paginate, Py.slice_bound.
  destruct (Z.ltb_spec offset 0); [lia|].
  destruct (Z.ltb_spec (offset + limit) 0); [lia|].
  destruct (Z.le_gt_cases (Z.of_nat (length l)) offset) as [Hge|Hlt].
  - rewrite !drop_ge by lia. by rewrite !take_nil.
  - rewrite (Z.min_l offset) by lia.
    destruct (Z.le_gt_cases (offset + limit) (Z.of_nat (length l))).
    + rewrite Z.min_l by lia. f_equal. lia.
    + rewrite Z.min_r by lia.
      rewrite !take_ge; [reflexivity|rewrite length_drop; lia..].
Qed.

Lemma paginate_length {A} (l : list A) (offset limit : Z) :
  (0 ≤ limit)%Z → (Py.len (Spec.paginate l offset limit) ≤ limit)%Z.
Proof.
  intros Hl. unfold Py.len, Spec.paginate. rewrite length_take. lia.
Qed.

Lemma slice_all {A} (l : list A) (n : Z) :
  (Z.of_nat (length l) ≤ n)%Z → Py.slice l 0 (0 + n) = l.
Proof.
  intros Hn. rewrite slice_from_zero by lia. unfold Spec.paginate.
  change (Z.to_nat 0) with 0%nat. rewrite drop_0, take_ge by lia. reflexivity.
Qed.

End PyFacts.


(* ===================================================================== *)
(** * The index builder                                                   *)
(* ===================================================================== *)

Section Builder.

Lemma build_bucket_paths well_key well_id bucket_name entries :
  Forall (λ h, SearchHit.path h ≠ EmptyString)
    (Index._build_bucket well_key well_id bucket_name entries).
Proof.
  unfold Index._build_bucket. apply Forall_flat_map, Forall_forall.
  intros e _. destruct (ManifestNode.path e) eqn:E; simpl; [constructor|].
  repeat constructor. simpl. discriminate.
Qed.

Lemma build_bucket_app well_key well_id bucket_name es1 es2 :
  Index._build_bucket well_key well_id bucket_name (es1 ++ es2)
  = Index._build_bucket well_key well_id bucket_name es1
    ++ Index._build_bucket well_key well_id bucket_name es2.
Proof. unfold Index._build_bucket. apply flat_map_app. Qed.

(** Every flat entry comes from a node of its well and bucket, with the
    path of that node. *)
Lemma build_provenance (manifests : Py.dict Manifest.t) (h : SearchHit.t) :
  h ∈ Index._build manifests →
  ∃ m entries e,
    (SearchHit.well_key h, m) ∈ manifests
    ∧ (SearchHit.bucket h, entries) ∈ Manifest.buckets m
    ∧ e ∈ entries ∧ SearchHit.path h = ManifestNode.path e.
Proof.
  intros Hh. unfold Index._build in Hh.
  apply list_elem_of_In, in_flat_map in Hh as ([wk m] & Hm & Hh).
  apply in_flat_map in Hh as ([b es] & Hb & Hh).
  apply in_flat_map in Hh as (e & He & Hh).
  exists m, es, e. rewrite !list_elem_of_In.
  destruct (ManifestNode.path e) eqn:E; simpl in Hh; [done|].
  destruct Hh as [<-|[]]. simpl. done.
Qed.

(** C9. For every mapping of manifests, every entry of the flat index built
    from it has a non-empty path; a node whose path is empty adds nothing to
    the entries of its bucket, whatever its other fields are. *)
Theorem flat_paths_nonempty (manifests : Py.dict Manifest.t) :
  Forall (λ h, SearchHit.path h ≠ EmptyString)
    (Index._flat (Index.init manifests))
  ∧ ∀ well_key well_id bucket_name es1 es2 name ty ext top tags refs,
      Index._build_bucket well_key well_id bucket_name
        (es1 ++ ManifestNode.mk EmptyString name ty ext top tags refs :: es2)
      = Index._build_bucket well_key well_id bucket_name (es1 ++ es2).
Proof.
  split.
  - simpl. unfold Index._build. apply Forall_flat_map, Forall_forall.
    intros [wk m] _. unfold Index._build_well.
    apply Forall_flat_map, Forall_forall. intros [b es] _.
    apply build_bucket_paths.
  - intros. rewrite !build_bucket_app. reflexivity.
Qed.

End Builder.

(* ===================================================================== *)
(** * Blank queries                                                       *)
(* ===================================================================== *)

Section BlankQuery.

Lemma slice_nil {A} (a b : Z) : Py.slice (@nil A) a b = [].
Proof. unfold Py.slice. by rewrite drop_nil, take_nil. Qed.

(** C5. A query that is empty after trimming yields zero matches: the index
    answers total 0 with an empty page, and the search endpoint answers with
    a body (not an exception) whose total is 0 and whose page is empty,
    whatever the index holds. *)
Theorem search_blank_query_no_match (idx : Index.ManifestIndex) (q : string)
    (well_key bucket : option string) (limit offset : Z)
    (include_dirs dedupe : bool) (dedupe_key : string) :
  Py.strip q = EmptyString →
  Index.search idx q well_key bucket limit offset = (0%Z, [])
  ∧ Api.search (Some idx) q well_key bucket limit offset
      include_dirs dedupe dedupe_key
    = Ok (SearchResponse.mk q (well_key, bucket) 0 offset limit []).
Proof.
  intros Hq.
  assert (Hs : ∀ l o, Index.search idx q well_key bucket l o = (0%Z, [])).
  { intros l o. unfold Index.search. rewrite Hq. reflexivity. }
  split; [apply Hs|].
  unfold Api.search, Api.search_results. simpl. rewrite Hs.
  rewrite filter_nil, fmap_nil.
  assert (Hd : (if dedupe then Api._dedupe_results [] dedupe_key else [])
               = @nil FileEntry.t) by (by destruct dedupe).
  rewrite Hd, slice_nil. reflexivity.
Qed.

(** The older endpoint does not have this rule: a blank query passes every
    entry ([if q_l and q_l not in hay]). *)
Lemma legacy_blank_query_matches_all :
  LegacyApi.search Ex.manifests " " None None 100 0 false true "path"
  = Ok (SearchResponse.mk " " (None, None) 1 0 100 [Ex.entry_b]).
Proof. vm_compute. reflexivity. Qed.

End BlankQuery.

(* ===================================================================== *)
(** * Bucket listing                                                      *)
(* ===================================================================== *)

Section BucketListing.

(** For a known well, the bucket listing of [api.py] answers with a body for
    every bucket name: its test [hits is None] never holds. *)
Lemma bucket_files_always_ok (idx : Index.ManifestIndex)
    (well_key bucket_name : string) (limit offset : Z) :
  Py.mem well_key (Index.manifests idx) = true →
  Api.bucket_files (Some idx) well_key bucket_name limit offset
  = Ok (BucketFilesResponse.mk well_key bucket_name
          (Py.len (filter (λ h, SearchHit.well_key h = well_key
                                ∧ SearchHit.bucket h = bucket_name)
                     (Index._flat idx)))
          offset limit
          (Api._hit_to_entry <$>
             Py.slice (filter (λ h, SearchHit.well_key h = well_key
                                    ∧ SearchHit.bucket h = bucket_name)
                         (Index._flat idx)) offset (offset + limit))).
Proof. intros Hk. unfold Api.bucket_files. simpl. rewrite Hk. reflexivity. Qed.

(** The older endpoint looks the bucket up in the manifest and reports a
    missing key. *)
Lemma legacy_bucket_files_not_found (MANIFESTS : Py.dict Manifest.t)
    (well_key bucket_name : string) (m : Manifest.t) (limit offset : Z) :
  Py.get MANIFESTS well_key = Some m →
  Py.get (Manifest.buckets m) bucket_name = None →
  LegacyApi.bucket_files MANIFESTS well_key bucket_name limit offset
  = HTTPException 404 "Unknown bucket for this well".
Proof.
  intros Hm Hb. unfold LegacyApi.bucket_files.
  destruct MANIFESTS; [discriminate|]. simpl LegacyApi._ensure_loaded.
  cbv iota beta. rewrite Hm, Hb. reflexivity.
Qed.

(** C3, at the specification's example: well ["A"] is known and has the one
    bucket ["docs"]; asked for ["nonexistent-bucket"], the endpoint of
    [api.py] answers with an empty page and total 0 instead of signalling
    that the bucket is unknown, while the older endpoint answers 404. *)
Theorem bucket_files_unknown_bucket_empty_page :
  Py.mem "A" (Index.manifests Ex.index) = true
  ∧ Py.get (Manifest.buckets Ex.manifest_a) "nonexistent-bucket" = None
  ∧ Api.bucket_files (Some Ex.index) "A" "nonexistent-bucket" 200 0
    = Ok (BucketFilesResponse.mk "A" "nonexistent-bucket" 0 0 200 [])
  ∧ LegacyApi.bucket_files Ex.manifests "A" "nonexistent-bucket" 200 0
    = HTTPException 404 "Unknown bucket for this well".
Proof. vm_compute. repeat split; reflexivity. Qed.

End BucketListing.

(* ===================================================================== *)
(** * Summaries                                                           *)
(* ===================================================================== *)

Section Summaries.

(** When the manifest records its foreign references, the summary counts
    them. *)
Lemma summary_foreign_count_recorded (idx : Index.ManifestIndex)
    (well_key : string) (m : Manifest.t) (refs : list string) :
  Py.get (Index.manifests idx) well_key = Some m →
  Manifest.foreign_ref m = Some refs →
  WellSummary.foreign_reference_count <$> Index.summary idx well_key
  = Some (Py.len refs).
Proof. intros Hm Hr. unfold Index.summary. rewrite Hm. simpl. by rewrite Hr. Qed.

(** When it does not, the summary of [index.py] counts none, whatever the
    nodes refer to. *)
Lemma summary_foreign_count_absent (idx : Index.ManifestIndex)
    (well_key : string) (m : Manifest.t) :
  Py.get (Index.manifests idx) well_key = Some m →
  Manifest.foreign_ref m = None →
  WellSummary.foreign_reference_count <$> Index.summary idx well_key
  = Some 0%Z.
Proof. intros Hm Hr. unfold Index.summary. rewrite Hm. simpl. by rewrite Hr. Qed.

Lemma legacy_count_nodes (count : Z) (nodes : list ManifestNode.t) :
  foldl (λ count n,
    match ManifestNode.foreign_ref_wells n with
    | [] => count
    | refs => (count + Py.len refs)%Z
    end) count nodes
  = (count + Py.sum ((λ n, Py.len (ManifestNode.foreign_ref_wells n)) <$> nodes))%Z.
Proof.
  revert count. unfold Py.sum.
  induction nodes as [|n nodes IH]; intros count; [simpl; lia|].
  rewrite fmap_cons. cbn [foldl foldr]. rewrite IH. unfold Py.len.
  destruct (ManifestNode.foreign_ref_wells n); cbn [length]; lia.
Qed.

(** The older [_foreign_ref_count] is the count of the specification. *)
Lemma legacy_foreign_ref_count_spec (m : Manifest.t) :
  LegacyApi._foreign_ref_count m = Spec.foreign_reference_count m.
Proof.
  unfold LegacyApi._foreign_ref_count, Spec.foreign_reference_count.
  destruct (Manifest.foreign_ref m); [reflexivity|].
  generalize (Py.values (Manifest.buckets m)). intros bs.
  rewrite <- (Z.add_0_l (Py.sum _)). generalize 0%Z.
  induction bs as [|nodes bs IH]; intros count; [simpl; lia|].
  cbn [foldl concat]. rewrite IH, legacy_count_nodes, fmap_app.
  unfold Py.sum. rewrite foldr_app.
  generalize ((λ n, Py.len (ManifestNode.foreign_ref_wells n)) <$> concat bs).
  generalize ((λ n, Py.len (ManifestNode.foreign_ref_wells n)) <$> nodes).
  intros l1 l2. induction l1 as [|z l1 IH1]; simpl; lia.
Qed.

(** C6, at a manifest that records no per-well foreign reference list and
    whose one node refers to one foreign well: the count of the
    specification is 1, the summary of [index.py] reports 0, and the older
    [_foreign_ref_count] reports 1. *)
Theorem summary_misses_node_foreign_refs :
  Manifest.foreign_ref Ex.manifest_a = None
  ∧ Spec.foreign_reference_count Ex.manifest_a = 1%Z
  ∧ Api.well_summary (Some Ex.index) "A"
    = Ok (WellSummary.mk "A" "15/9-F-9A" [("docs", 1%Z)] 1 0)
  ∧ LegacyApi._foreign_ref_count Ex.manifest_a = 1%Z.
Proof. vm_compute. repeat split; reflexivity. Qed.

End Summaries.


(* ===================================================================== *)
(** * Text matching                                                       *)
(* ===================================================================== *)

Section TextMatching.

(** The function [hit] of [ManifestIndex.search] is the conjunction of the
    two filters and of the text match rule. *)
Lemma hit_decompose (qn : string) (well_key bucket : option string)
    (h : SearchHit.t) :
  Index.hit qn well_key bucket h
  = negb (Index.filter_rejects well_key (SearchHit.well_key h))
    && negb (Index.filter_rejects bucket (SearchHit.bucket h))
    && Spec.text_match qn h.
Proof.
  unfold Index.hit, Spec.text_match, Spec.plain_match, Spec.slash_match.
  destruct (Index.filter_rejects well_key _); [reflexivity|].
  destruct (Index.filter_rejects bucket _); [reflexivity|]. simpl.
  repeat match goal with
         | |- context [Py.contains qn ?x] => destruct (Py.contains qn x); simpl
         end; try reflexivity.
  destruct (existsb _ _); simpl; [reflexivity|].
  destruct (Py.has_char "_" qn) eqn:Hu; simpl.
  - destruct (negb _ && _); reflexivity.
  - rewrite (replace_absent _ _ _ Hu), bool_decide_eq_true_2 by reflexivity.
    reflexivity.
Qed.

(** C4. For a query with an underscore, the candidate of the text match is
    the query with every underscore replaced by ["/"] (lowered, as the
    fields it is compared with are), it differs from the normalised query,
    and an entry that passes the well and bucket filters is a hit exactly
    when the normalised query is in one of its fields or the candidate is in
    its lowered well id or path.  So the normalised query ["15_9-f-9a"] hits
    the entry of well id ["15/9-F-9A"], which no field matches directly, and
    the endpoint returns it for ["15_9-F-9A"]. *)
Theorem underscore_query_matches_slash (q : string)
    (well_key bucket : option string) (h : SearchHit.t) :
  Py.has_char "_" q = true →
  let qn := Py.lower (Py.strip q) in
  let candidate := Py.replace "_" "/" qn in
  candidate = Py.lower (Py.replace "_" "/" (Py.strip q))
  ∧ candidate ≠ qn
  ∧ Index.hit qn well_key bucket h
    = negb (Index.filter_rejects well_key (SearchHit.well_key h))
      && negb (Index.filter_rejects bucket (SearchHit.bucket h))
      && (Spec.plain_match qn h
          || Py.contains candidate (Py.lower (SearchHit.well_id h))
          || Py.contains candidate (Py.lower (SearchHit.path h)))
  ∧ Spec.plain_match "15_9-f-9a" Ex.hit_b = false
  ∧ Index.hit "15_9-f-9a" None None Ex.hit_b = true
  ∧ Api.search (Some Ex.index) "15_9-F-9A" None None 100 0 false true "path"
    = Ok (SearchResponse.mk "15_9-F-9A" (None, None) 1 0 100 [Ex.entry_b]).
Proof.
  intros Hq qn candidate.
  assert (Hu : Py.has_char "_" qn = true)
    by (unfold qn; by rewrite has_char_normalized_underscore).
  assert (Hne : candidate ≠ qn) by (by apply replace_present).
  split; [apply replace_lower|]. split; [exact Hne|].
  split; [|by vm_compute].
  rewrite hit_decompose. unfold Spec.text_match, Spec.slash_match.
  fold candidate. rewrite Hu, (bool_decide_eq_false_2 _ Hne). simpl.
  by rewrite orb_assoc.
Qed.

(** The older endpoint looks the query up in one joined, lowered string and
    has no candidate with slashes: the same request finds nothing there. *)
Lemma legacy_underscore_query_no_match :
  LegacyApi.search Ex.manifests "15_9-F-9A" None None 100 0 false true "path"
  = Ok (SearchResponse.mk "15_9-F-9A" (None, None) 0 0 100 []).
Proof. vm_compute. reflexivity. Qed.

End TextMatching.


(* ===================================================================== *)
(** * Tag normalisation                                                   *)
(* ===================================================================== *)

Section Tags.

Lemma filter_fmap {A B} (f : A → B) (P : B → Prop) `{!∀ x, Decision (P x)}
    (l : list A) :
  filter P (f <$> l) = f <$> filter (λ x, P (f x)) l.
Proof.
  induction l as [|x l IH]; [reflexivity|]. rewrite fmap_cons, !filter_cons.
  destruct (decide (P (f x))); rewrite IH; reflexivity.
Qed.

Lemma filter_truthy (l : list string) :
  filter (λ p, Py.truthy p = true) l = filter (λ p, p ≠ EmptyString) l.
Proof. apply list_filter_iff. intros p. apply truthy_true. Qed.

(** [_split_tags] of [index.py] on a list. *)
Lemma split_tags_list (l : list string) :
  Index._split_tags (TagsList l)
  = filter (λ t, t ≠ EmptyString) (Py.strip <$> l).
Proof.
  simpl. rewrite filter_fmap. f_equal. apply list_filter_iff.
  intros t. apply truthy_true.
Qed.

(** [_split_tags] of [index.py] on a string: cut at every ["|"] and at
    every [","]. *)
Lemma split_tags_str (s : string) :
  Index._split_tags (TagsStr s)
  = filter (λ t, t ≠ EmptyString)
      (Py.strip <$> Py.split "|" (Py.replace "," "|" s)).
Proof. simpl. apply filter_truthy. Qed.

Lemma stripped_nonempty_pieces (l : list string) :
  Forall (λ t, t ≠ EmptyString ∧ Py.strip t = t)
    (filter (λ t, t ≠ EmptyString) (Py.strip <$> l)).
Proof.
  apply Forall_forall. intros t Ht.
  apply list_elem_of_filter in Ht as [Hne Ht].
  apply list_elem_of_fmap in Ht as (u & -> & _).
  split; [exact Hne|apply strip_idem].
Qed.

(** C2, at the string ["A|B,C"], which has both separators: the
    specification splits on ["|"] first and leaves the comma in the second
    tag, and so does [_split_tags] of the older [volve_query/api.py];
    [_split_tags] of [index.py], which turns every [","] into ["|"] before
    it splits, cuts at the comma as well and returns three tags. *)
Theorem split_tags_mixed_separators :
  Index._split_tags (TagsStr "A|B,C") = ["A"; "B"; "C"]
  ∧ Spec.normalize_tags (TagsStr "A|B,C") = ["A"; "B,C"]
  ∧ LegacyApi._split_tags (TagsStr "A|B,C") = ["A"; "B,C"].
Proof. vm_compute. repeat split; reflexivity. Qed.

(** So the tags of [index.py] are not for every raw value those of the
    specification. *)
Lemma split_tags_not_pipe_first :
  ¬ (∀ raw : RawTags, Index._split_tags raw = Spec.normalize_tags raw).
Proof.
  intros H. specialize (H (TagsStr "A|B,C")). vm_compute in H. discriminate.
Qed.

(** What [_split_tags] of [index.py] does: its tags are non-empty trimmed
    strings in source order: none for an absent value; the trimmed
    non-empty elements of a list; for a string, the trimmed non-empty
    pieces between the separators, where every ["|"] and every [","]
    separates.  On a string that does not have both separators this is the
    rule of the specification (split on ["|"], or on [","] if there is no
    ["|"]), and a non-blank string without separator gives the one trimmed
    token. *)
Theorem split_tags_canonical :
  (∀ raw, Forall (λ t, t ≠ EmptyString ∧ Py.strip t = t) (Index._split_tags raw))
  ∧ Index._split_tags TagsNone = []
  ∧ (∀ l, Index._split_tags (TagsList l)
          = filter (λ t, t ≠ EmptyString) (Py.strip <$> l))
  ∧ (∀ s, Index._split_tags (TagsStr s)
          = filter (λ t, t ≠ EmptyString)
              (Py.strip <$> Py.split "|" (Py.replace "," "|" s)))
  ∧ (∀ raw,
       match raw with
       | TagsStr s => Py.has_char "|" s && Py.has_char "," s
       | _ => false
       end = false →
       Index._split_tags raw = Spec.normalize_tags raw)
  ∧ (∀ s, Py.has_char "|" s = false → Py.has_char "," s = false →
          Py.strip s ≠ EmptyString →
          Index._split_tags (TagsStr s) = [Py.strip s]).
Proof.
  assert (Hmix : ∀ raw,
       match raw with
       | TagsStr s => Py.has_char "|" s && Py.has_char "," s
       | _ => false
       end = false →
       Index._split_tags raw = Spec.normalize_tags raw).
  { intros [|s|l] Hs; [reflexivity| |apply split_tags_list].
    rewrite split_tags_str. unfold Spec.normalize_tags.
    destruct (Py.has_char "|" s) eqn:Hp.
    - simpl in Hs. by rewrite (replace_absent _ _ _ Hs).
    - by rewrite (split_replace _ _ _ Hp). }
  split; [|split; [reflexivity|split; [apply split_tags_list|
           split; [apply split_tags_str|split; [exact Hmix|]]]]].
  - intros [|s|l].
    + constructor.
    + rewrite split_tags_str. apply stripped_nonempty_pieces.
    + rewrite split_tags_list. apply stripped_nonempty_pieces.
  - intros s Hp Hc Hne. rewrite (Hmix (TagsStr s)) by (by rewrite Hp).
    unfold Spec.normalize_tags. rewrite Hp, (split_absent _ _ Hc).
    simpl. rewrite filter_cons_True by assumption. reflexivity.
Qed.

(** The older [_split_tags] has the rule of the specification on strings,
    but keeps the elements of a list untrimmed. *)
Lemma legacy_split_tags_examples :
  LegacyApi._split_tags (TagsStr "A|B,C") = ["A"; "B,C"]
  ∧ LegacyApi._split_tags (TagsList [" a "; " "; "b"]) = [" a "; "b"]
  ∧ Index._split_tags (TagsList [" a "; " "; "b"]) = ["a"; "b"].
Proof. vm_compute. repeat split; reflexivity. Qed.

End Tags.


(* ===================================================================== *)
(** * Deduplication                                                       *)
(* ===================================================================== *)

Section FirstOccurrences.

Context {A K : Type} `{EqDecision K} (key : A → K).

Lemma first_occ_from_index (pre l : list A) :
  omap (λ '(i, x),
          if decide (key x ∈ key <$> take i (pre ++ l)) then None else Some x)
       (imap (λ i x, (length pre + i, x)) l)
  = first_occ_from key (key <$> pre) l.
Proof.
  revert pre. induction l as [|x l IH]; intros pre; [reflexivity|].
  rewrite imap_cons, Nat.add_0_r. cbn [omap list_omap first_occ_from].
  rewrite take_app_length.
  assert (Hrest :
    omap (λ '(i, x0),
            if decide (key x0 ∈ key <$> take i (pre ++ x :: l))
            then None else Some x0)
         (imap ((λ i x0, (length pre + i, x0)) ∘ S) l)
    = first_occ_from key ((key <$> pre) ++ [key x]) l).
  { specialize (IH (pre ++ [x])).
    rewrite fmap_app, <- (assoc_L (++)) in IH. simpl in IH. rewrite <- IH.
    f_equal. apply imap_ext. intros i y _. simpl.
    rewrite length_app. simpl. f_equal. lia. }
  destruct (decide (key x ∈ key <$> pre)); simpl; rewrite Hrest; reflexivity.
Qed.

(** The positional wording and the recursion agree. *)
Lemma first_occurrences_rec (l : list A) :
  Spec.first_occurrences key l = first_occ_from key [] l.
Proof.
  exact (first_occ_from_index [] l).
Qed.

Lemma first_occ_from_fresh (earlier : list K) (l : list A) :
  NoDup (key <$> first_occ_from key earlier l)
  ∧ ∀ x, x ∈ first_occ_from key earlier l → key x ∉ earlier.
Proof.
  revert earlier. induction l as [|x l IH]; intros earlier.
  - split; [constructor|]. intros x Hx. by apply elem_of_nil in Hx.
  - destruct (IH (earlier ++ [key x])) as [Hnd Hfresh].
    assert (Hrest : ∀ y, y ∈ first_occ_from key (earlier ++ [key x]) l →
                         (key y ∉ earlier) ∧ (key y ≠ key x)).
    { intros y Hy. specialize (Hfresh y Hy).
      rewrite elem_of_app, list_elem_of_singleton in Hfresh. tauto. }
    cbn [first_occ_from]. destruct (decide (key x ∈ earlier)) as [Hin|Hout].
    + simpl. split; [exact Hnd|]. intros y Hy. by apply Hrest.
    + simpl. split.
      * constructor; [|exact Hnd]. intros Hx.
        apply list_elem_of_fmap in Hx as (y & Hk & Hy).
        destruct (Hrest y Hy) as [_ Hne]. congruence.
      * intros y Hy. apply elem_of_cons in Hy as [->|Hy]; [exact Hout|].
        by apply Hrest.
Qed.

Lemma first_occ_from_nodup (earlier : list K) (l : list A) :
  NoDup (key <$> l) → (∀ x, x ∈ l → key x ∉ earlier) →
  first_occ_from key earlier l = l.
Proof.
  revert earlier. induction l as [|x l IH]; intros earlier Hnd Hfresh;
    [reflexivity|].
  rewrite fmap_cons in Hnd. apply NoDup_cons in Hnd as [Hx Hnd].
  cbn [first_occ_from]. rewrite decide_False by (apply Hfresh; left).
  simpl. f_equal. apply IH; [exact Hnd|].
  intros y Hy. rewrite elem_of_app, list_elem_of_singleton.
  intros [Hin|Heq].
  - by apply (Hfresh y); [right|].
  - apply Hx. rewrite <- Heq. apply list_elem_of_fmap. eauto.
Qed.

Lemma first_occ_from_sublist (earlier : list K) (l : list A) :
  first_occ_from key earlier l `sublist_of` l.
Proof.
  revert earlier. induction l as [|x l IH]; intros earlier; [constructor|].
  cbn [first_occ_from]. destruct (decide (key x ∈ earlier)); simpl.
  - by apply sublist_cons.
  - by apply sublist_skip.
Qed.

(** Two keys that tell the same elements apart keep the same elements. *)
Lemma first_occ_from_key_ext {K'} `{EqDecision K'} (key' : A → K')
    (seen : list A) (l : list A) :
  (∀ x y, x ∈ seen ++ l → y ∈ seen ++ l → key x = key y ↔ key' x = key' y) →
  first_occ_from key (key <$> seen) l = first_occ_from key' (key' <$> seen) l.
Proof.
  revert seen. induction l as [|x l IH]; intros seen Hk; [reflexivity|].
  cbn [first_occ_from].
  assert (Hsame : key x ∈ key <$> seen ↔ key' x ∈ key' <$> seen).
  { rewrite !list_elem_of_fmap. split; intros (y & Hy & Hin); exists y;
      (split; [|exact Hin]); apply Hk; try done;
      rewrite elem_of_app; [right; left|by left|right; left|by left]. }
  specialize (IH (seen ++ [x])). rewrite !fmap_app in IH. simpl in IH.
  rewrite IH by (intros ??; rewrite <- (assoc_L (++)); apply Hk).
  destruct (decide (key x ∈ key <$> seen)), (decide (key' x ∈ key' <$> seen));
    tauto || reflexivity.
Qed.

End FirstOccurrences.

Section Dedupe.

(** The loop of [_dedupe_results] appends to [out] the first occurrences of
    the rest, [seen] holding the keys passed so far. *)
Lemma dedupe_loop_spec (key : string) (rest : list FileEntry.t)
    (seen : gset string) (earlier : list string) (out : list FileEntry.t) :
  (∀ k, k ∈ seen ↔ k ∈ earlier) →
  Api._dedupe_loop key rest seen out
  = out ++ first_occ_from (Api.dedupe_k key) earlier rest.
Proof.
  revert seen earlier out.
  induction rest as [|r rest IH]; intros seen earlier out Hseen.
  - simpl. by rewrite app_nil_r.
  - cbn [Api._dedupe_loop first_occ_from].
    destruct (decide (Api.dedupe_k key r ∈ seen)) as [Hin|Hout].
    + rewrite decide_True by (by apply Hseen). simpl.
      apply IH. intros k. rewrite elem_of_app, list_elem_of_singleton.
      rewrite <- Hseen. split; [tauto|]. intros [?| ->]; assumption.
    + rewrite decide_False by (by rewrite <- Hseen).
      rewrite (IH _ (earlier ++ [Api.dedupe_k key r])).
      * by rewrite <- (assoc_L (++)).
      * intros k. rewrite elem_of_union, elem_of_singleton, elem_of_app,
          list_elem_of_singleton, Hseen. tauto.
Qed.

Lemma dedupe_results_first_occurrences (results : list FileEntry.t)
    (key : string) :
  Api._dedupe_results results key
  = Spec.first_occurrences (Api.dedupe_k key) results.
Proof.
  unfold Api._dedupe_results. rewrite first_occurrences_rec.
  apply (dedupe_loop_spec key results ∅ [] []).
  intros k. rewrite elem_of_nil. set_solver.
Qed.

Lemma append_cons (c : ascii) (s t : string) :
  (String c s ++ t)%string = String c (s ++ t)%string.
Proof. reflexivity. Qed.

(** The key string [well_key::filename] determines the pair when the well
    keys have no colon. *)
Lemma key_string_inj (wk1 fn1 wk2 fn2 : string) :
  Py.has_char ":" wk1 = false → Py.has_char ":" wk2 = false →
  (wk1 ++ "::" ++ fn1)%string = (wk2 ++ "::" ++ fn2)%string →
  wk1 = wk2 ∧ fn1 = fn2.
Proof.
  revert wk2. induction wk1 as [|c wk1 IH]; intros [|d wk2] H1 H2 E.
  - injection E. done.
  - rewrite append_cons in E. injection E as <- _. simpl in H2. discriminate.
  - rewrite append_cons in E. injection E as -> _. simpl in H1. discriminate.
  - rewrite !append_cons in E. injection E as -> E. simpl in H1, H2.
    destruct (decide (d = ":"%char)); [discriminate|].
    destruct (IH wk2 H1 H2 E) as [-> ->]. done.
Qed.

Example dedupe_drops_later_duplicate :
  Api._dedupe_results [Ex.entry_1; Ex.entry_b; Ex.entry_1; Ex.entry_b] "path"
  = [Ex.entry_1; Ex.entry_b].
Proof. vm_compute. reflexivity. Qed.

(** C8, at two entries that differ in both components of the pair (well
    key, file name): well key ["a::b"] with file name ["c"], and well key
    ["a"] with file name ["b::c"].  With [dedupeKey = filename] the loop
    gives both the key ["a::b::c"], and the second entry, which is no
    duplicate of the first, is dropped. *)
Example dedupe_key_collision :
  Api.dedupe_k "filename" Ex.entry_1 = "a::b::c"
  ∧ Api.dedupe_k "filename" Ex.entry_2 = "a::b::c"
  ∧ Spec.filename_key Ex.entry_1 ≠ Spec.filename_key Ex.entry_2
  ∧ Api._dedupe_results [Ex.entry_1; Ex.entry_2] "filename" = [Ex.entry_1].
Proof. vm_compute. repeat split; try reflexivity. discriminate. Qed.

(** So with [dedupeKey = filename] the result is not for every list the
    first occurrences per pair (well key, file name). *)
Lemma dedupe_filename_key_not_pair :
  ¬ (∀ results : list FileEntry.t,
       Api._dedupe_results results "filename"
       = Spec.first_occurrences Spec.filename_key results).
Proof.
  intros H. specialize (H [Ex.entry_1; Ex.entry_2]).
  vm_compute in H. discriminate.
Qed.

(** Where the key string tells the pairs apart, deduplication by file name
    keeps the first occurrence per pair (well key, file name). *)
Lemma dedupe_filename_is_pair (results : list FileEntry.t) :
  Forall (λ r, Py.has_char ":" (FileEntry.well_key r) = false) results →
  Api._dedupe_results results "filename"
  = Spec.first_occurrences Spec.filename_key results.
Proof.
  intros Hcolon. rewrite dedupe_results_first_occurrences.
  rewrite !first_occurrences_rec.
  apply (first_occ_from_key_ext _ _ [] results).
  intros x y Hx Hy. simpl in Hx, Hy.
  rewrite Forall_forall in Hcolon. unfold Api.dedupe_k, Spec.filename_key.
  simpl. split.
  - intros E. apply key_string_inj in E as [-> ->]; auto.
  - intros E. injection E as -> ->. reflexivity.
Qed.

(** What [_dedupe_results] does.  For every list of entries it keeps exactly
    the first occurrence per key, in the order of the list, where the key is
    the entry's path when [dedupeKey = path] and otherwise the string
    [well_key::filename]; on a list in which no well key has a colon this is
    the first occurrence per pair (well key, file name).  The result is a
    sub-list of the input without two entries of the same key, and
    deduplication is idempotent: a list without duplicate keys is returned
    unchanged. *)
Theorem dedupe_keeps_first_occurrences (results : list FileEntry.t)
    (key : string) :
  Api._dedupe_results results "path"
  = Spec.first_occurrences FileEntry.path results
  ∧ Api._dedupe_results results "filename"
    = Spec.first_occurrences
        (λ r, FileEntry.well_key r ++ "::" ++ FileEntry.filename r)%string
        results
  ∧ (Forall (λ r, Py.has_char ":" (FileEntry.well_key r) = false) results →
     Api._dedupe_results results "filename"
     = Spec.first_occurrences Spec.filename_key results)
  ∧ Api._dedupe_results results key `sublist_of` results
  ∧ NoDup (Api.dedupe_k key <$> Api._dedupe_results results key)
  ∧ Api._dedupe_results (Api._dedupe_results results key) key
    = Api._dedupe_results results key
  ∧ (NoDup (Api.dedupe_k key <$> results) →
     Api._dedupe_results results key = results).
Proof.
  assert (Hnd : ∀ l, NoDup (Api.dedupe_k key <$> l) →
                     Api._dedupe_results l key = l).
  { intros l Hl. rewrite dedupe_results_first_occurrences, first_occurrences_rec.
    apply first_occ_from_nodup; [exact Hl|]. intros x _. apply not_elem_of_nil. }
  assert (Hkeys : NoDup (Api.dedupe_k key <$> Api._dedupe_results results key)).
  { rewrite dedupe_results_first_occurrences, first_occurrences_rec.
    apply first_occ_from_fresh. }
  repeat split.
  - apply dedupe_results_first_occurrences.
  - apply dedupe_results_first_occurrences.
  - apply dedupe_filename_is_pair.
  - rewrite dedupe_results_first_occurrences, first_occurrences_rec.
    apply first_occ_from_sublist.
  - exact Hkeys.
  - apply Hnd, Hkeys.
  - apply Hnd.
Qed.

End Dedupe.


(* ===================================================================== *)
(** * The search endpoint: total, page and order of the steps             *)
(* ===================================================================== *)

Section SearchContract.

(** A filter that is given and not empty rejects exactly the other values. *)
Lemma filter_rejects_given (flt : option string) (value : string) :
  flt ≠ Some EmptyString →
  Index.filter_rejects flt value = false
  ↔ from_option (λ k, value = k) True flt.
Proof.
  intros Hflt. destruct flt as [k|]; simpl; [|tauto].
  destruct k as [|c k]; [congruence|]. simpl.
  rewrite negb_false_iff, bool_decide_eq_true. tauto.
Qed.

Lemma hit_true_iff (qn : string) (well_key bucket : option string)
    (h : SearchHit.t) :
  well_key ≠ Some EmptyString → bucket ≠ Some EmptyString →
  Index.hit qn well_key bucket h = true
  ↔ from_option (λ k, SearchHit.well_key h = k) True well_key
    ∧ from_option (λ k, SearchHit.bucket h = k) True bucket
    ∧ Spec.text_match qn h = true.
Proof.
  intros Hw Hb. rewrite hit_decompose, !andb_true_iff, !negb_true_iff.
  rewrite (filter_rejects_given _ _ Hw), (filter_rejects_given _ _ Hb). tauto.
Qed.

(** The hits of the index with directories dropped afterwards are the
    entries that pass filters (1) to (4) in the order of the text. *)
Lemma hits_are_filtered (flat : list SearchHit.t) (qn : string)
    (well_key bucket : option string) (include_dirs : bool) :
  well_key ≠ Some EmptyString → bucket ≠ Some EmptyString →
  filter (λ h, include_dirs = true ∨ SearchHit.type h ≠ directory)
    (filter (λ h, Index.hit qn well_key bucket h = true) flat)
  = Spec.filtered flat qn well_key bucket include_dirs.
Proof.
  intros Hw Hb. unfold Spec.filtered, Spec.equality_filter.
  destruct well_key as [k1|], bucket as [k2|];
    rewrite !list_filter_filter; apply list_filter_iff; intros h;
    rewrite (hit_true_iff _ _ _ _ Hw Hb); simpl; tauto.
Qed.

(** What the index returns for a query that is not blank. *)
Lemma index_search_nonblank (idx : Index.ManifestIndex) (q : string)
    (well_key bucket : option string) (limit offset : Z) :
  Py.strip q ≠ EmptyString →
  Index.search idx q well_key bucket limit offset
  = let matches :=
      filter (λ h, Index.hit (Py.lower (Py.strip q)) well_key bucket h = true)
        (Index._flat idx) in
    (Py.len matches, Py.slice matches offset (offset + limit)).
Proof.
  intros Hq. unfold Index.search.
  destruct (Py.lower (Py.strip q)) eqn:E; [|reflexivity].
  apply (proj1 (lower_empty _)) in E. contradiction.
Qed.

(** The example of the specification: one node with tags ["X|Y"]. *)
Example search_b_txt :
  Api.search (Some Ex.index) "b.txt" None None 100 0 false true "path"
  = Ok (SearchResponse.mk "b.txt" (None, None) 1 0 100 [Ex.entry_b])
  ∧ FileEntry.tags Ex.entry_b = ["X"; "Y"].
Proof. vm_compute. split; reflexivity. Qed.

(** With an empty bucket filter the endpoint returns what it returns
    without one. *)
Example search_empty_bucket_filter :
  Api.search (Some Ex.index) "b.txt" None (Some EmptyString) 100 0 false true "path"
  = Ok (SearchResponse.mk "b.txt" (None, Some EmptyString) 1 0 100 [Ex.entry_b])
  ∧ Spec.final_list (Index._flat Ex.index) "b.txt" None (Some EmptyString)
      false true "path" = [].
Proof. vm_compute. split; reflexivity. Qed.

(** With a colon in a well key, deduplication by file name can take two
    entries of different wells and file names for one: the endpoint reports
    one entry where the list deduplicated by the pair has two.  The
    condition on the well keys in [search_total_and_page] cannot be
    dropped. *)
Example search_filename_key_collision :
  Api.search (Some (Index.init Ex.manifests_colliding)) "p/" None None 100 0
    false true "filename"
  = Ok (SearchResponse.mk "p/" (None, None) 1 0 100 [Ex.entry_1])
  ∧ Spec.final_list (Index._flat (Index.init Ex.manifests_colliding)) "p/"
      None None false true "filename"
    = [Ex.entry_1; Ex.entry_2].
Proof. vm_compute. split; reflexivity. Qed.

(** C1, counterexample: the claim as stated, with the bucket filter an
    equality filter whenever it is given, fails for the empty bucket name.
    The endpoint ignores an empty filter and reports the entry of bucket
    ["docs"]; the list filtered for the empty bucket name is empty. *)
Lemma search_empty_filter_ignored :
  ¬ (∀ (idx : Index.ManifestIndex) (q : string)
       (well_key bucket : option string) (limit offset : Z)
       (include_dirs dedupe : bool) (dedupe_key : string),
       Py.strip q ≠ EmptyString → (0 ≤ offset)%Z → (1 ≤ limit)%Z →
       ∃ r, Api.search (Some idx) q well_key bucket limit offset
              include_dirs dedupe dedupe_key = Ok r
            ∧ SearchResponse.total r
              = Py.len (Spec.final_list (Index._flat idx) q well_key bucket
                          include_dirs dedupe dedupe_key)).
Proof.
  intros H.
  destruct (H Ex.index "b.txt" None (Some EmptyString) 100%Z 0%Z false true "path")
    as (r & Hr & Ht); [discriminate|lia|lia|].
  vm_compute in Hr. injection Hr as <-. vm_compute in Ht. discriminate.
Qed.

Lemma filtered_elem_of (flat : list SearchHit.t) (qn : string)
    (well_key bucket : option string) (include_dirs : bool) (h : SearchHit.t) :
  h ∈ Spec.filtered flat qn well_key bucket include_dirs → h ∈ flat.
Proof.
  unfold Spec.filtered, Spec.equality_filter.
  destruct well_key, bucket; rewrite !list_elem_of_filter; tauto.
Qed.

(** C1, amended. For every search with a query that is not blank, with well
    key and bucket filters that are absent or not empty (an empty filter is
    ignored by the endpoint), with [dedupe_key] one of ["path"] and
    ["filename"], on an index that reports no more hits than the 999999 the
    endpoint asks it for and, where the search deduplicates by file name,
    has no colon in a well key: the endpoint answers with a body whose total
    is the length of the final list (directory exclusion, the equality
    filters, text match, then, if enabled, the first occurrence per path or
    per pair of well key and file name, over the flat index), whose page is
    the slice [offset, offset + limit) of that same list, and whose page has
    at most [limit] entries. *)
Theorem search_total_and_page (idx : Index.ManifestIndex) (q : string)
    (well_key bucket : option string) (limit offset : Z)
    (include_dirs dedupe : bool) (dedupe_key : string) :
  Py.strip q ≠ EmptyString →
  well_key ≠ Some EmptyString → bucket ≠ Some EmptyString →
  dedupe_key = "path" ∨ dedupe_key = "filename" →
  ((Index.search idx q well_key bucket 999999 0).1 ≤ 999999)%Z →
  dedupe = false ∨ dedupe_key = "path"
  ∨ Forall (λ h, Py.has_char ":" (SearchHit.well_key h) = false)
      (Index._flat idx) →
  (0 ≤ offset)%Z → (1 ≤ limit)%Z →
  let final :=
    Spec.final_list (Index._flat idx) q well_key bucket
      include_dirs dedupe dedupe_key in
  ∃ r, Api.search (Some idx) q well_key bucket limit offset
         include_dirs dedupe dedupe_key = Ok r
       ∧ SearchResponse.total r = Py.len final
       ∧ SearchResponse.results r = Spec.paginate final offset limit
       ∧ (Py.len (SearchResponse.results r) ≤ limit)%Z.
Proof.
  intros Hq Hw Hb Hkey Hcap Hcolon Ho Hl final.
  assert (Hres : Api.search_results idx q well_key bucket
                   include_dirs dedupe dedupe_key = final).
  { unfold Api.search_results, final, Spec.final_list.
    rewrite index_search_nonblank in Hcap |- * by assumption.
    cbv zeta in Hcap |- *. simpl in Hcap.
    rewrite slice_all by exact Hcap.
    rewrite (hits_are_filtered _ _ _ _ _ Hw Hb).
    destruct dedupe; [|reflexivity]. unfold Spec.deduplicated.
    destruct Hkey as [-> | ->].
    - rewrite decide_True by reflexivity.
      apply dedupe_results_first_occurrences.
    - rewrite decide_False by discriminate.
      apply dedupe_filename_is_pair.
      destruct Hcolon as [?|[?|Hcolon]]; [discriminate..|].
      apply Forall_fmap, Forall_forall. intros h Hh.
      apply filtered_elem_of in Hh. rewrite Forall_forall in Hcolon.
      by apply Hcolon. }
  unfold Api.search. simpl Api._get_index. cbv iota beta zeta. rewrite Hres.
  eexists. split; [reflexivity|]. simpl.
  rewrite slice_from_zero by lia.
  split; [reflexivity|]. split; [reflexivity|].
  apply paginate_length. lia.
Qed.

End SearchContract.

Section SearchCap.

Lemma filter_replicate {A} (P : A → Prop) `{!∀ x, Decision (P x)}
    (n : nat) (x : A) :
  P x → filter P (replicate n x) = replicate n x.
Proof.
  intros Hx. induction n as [|n IH]; [reflexivity|]. simpl.
  rewrite filter_cons_True by assumption. by rewrite IH.
Qed.

Lemma build_bucket_replicate (n : nat) :
  Index._build_bucket "A" "15/9-F-9A" "docs" (replicate n Ex.node_b)
  = replicate n Ex.hit_b.
Proof.
  induction n as [|n IH]; [reflexivity|].
  change (replicate (S n) Ex.node_b) with ([Ex.node_b] ++ replicate n Ex.node_b).
  rewrite build_bucket_app, IH. reflexivity.
Qed.

(** The endpoint takes at most 999999 hits from the index
    ([limit=999_999]): on an index with more matching entries its total
    stops there, below the length of the final list.  The bound on the hits
    in [search_total_and_page] cannot be dropped. *)
Lemma search_total_capped (n : nat) :
  (999999 < Z.of_nat n)%Z →
  let idx := Index.init (Ex.manifests_of_size n) in
  Py.len (Spec.final_list (Index._flat idx) "b.txt" None None
            false false "path") = Z.of_nat n
  ∧ ∃ r, Api.search (Some idx) "b.txt" None None 100 0 false false "path"
         = Ok r
       ∧ SearchResponse.total r = 999999%Z.
Proof.
  intros Hn idx.
  assert (Hflat : Index._flat idx = replicate n Ex.hit_b).
  { unfold idx, Index.init, Ex.manifests_of_size, Index._flat, Index._build.
    cbn [flat_map]. unfold Index._build_well. cbn [Manifest.buckets flat_map].
    rewrite !app_nil_r. apply build_bucket_replicate. }
  assert (Hhit : Index.hit (Py.lower (Py.strip "b.txt")) None None Ex.hit_b = true)
    by (by vm_compute).
  assert (Htext : Spec.text_match (Py.lower (Py.strip "b.txt")) Ex.hit_b = true)
    by (by vm_compute).
  split.
  - unfold Spec.final_list, Spec.filtered, Spec.equality_filter.
    rewrite Hflat, !filter_replicate, fmap_replicate;
      [|exact Htext|right; discriminate].
    unfold Py.len. by rewrite length_replicate.
  - assert (Hres : Api.search_results idx "b.txt" None None false false "path"
                   = replicate (Z.to_nat 999999) Ex.entry_b).
    { unfold Api.search_results.
      rewrite index_search_nonblank by (vm_compute; discriminate).
      cbv zeta. rewrite Hflat, filter_replicate by exact Hhit.
      unfold Py.slice, Py.slice_bound. rewrite length_replicate.
      change (0 <? 0)%Z with false. change (0 + 999999 <? 0)%Z with false.
      cbv iota. rewrite !Z.min_l by lia.
      change (Z.to_nat 0) with 0%nat. rewrite drop_0, take_replicate.
      rewrite Nat.min_l by lia.
      rewrite filter_replicate by (right; discriminate).
      rewrite fmap_replicate. change (0 + 999999 - 0)%Z with 999999%Z.
      reflexivity. }
    unfold Api.search. simpl Api._get_index. cbv iota beta zeta.
    rewrite Hres. eexists. split; [reflexivity|].
    unfold SearchResponse.total, Py.len. rewrite length_replicate. lia.
Qed.

End SearchCap.


(* ===================================================================== *)
(** * The loader                                                          *)
(* ===================================================================== *)

Section LoaderFacts.

(** Assigning to a key that is present replaces its value in place: the
    mapping does not grow and the former value is gone. *)
Lemma set_existing_key {V} (d : Py.dict V) (k : string) (v : V) :
  Py.get (Py.set d k v) k = Some v
  ∧ (Py.mem k d = true → length (Py.set d k v) = length d).
Proof.
  unfold Py.mem. induction d as [|[k' v'] d [IH1 IH2]]; simpl.
  - rewrite decide_True by reflexivity. split; [reflexivity|discriminate].
  - destruct (decide (k' = k)) as [->|Hne]; simpl.
    + rewrite decide_True by reflexivity. split; reflexivity.
    + rewrite decide_False by assumption. split; [exact IH1|].
      intros H. f_equal. apply IH2. exact H.
Qed.

(** The loop over the well directories opens files of well directories
    only. *)
Lemma load_subdirs_opens_in_well_dirs (subdirs : list (string * Loader.FsNode))
    (manifests : Py.dict Manifest.t) (opened : list Loader.Opened) :
  (∀ f, Loader.InBase f ∉ opened) →
  ∀ f, Loader.InBase f ∉ (Loader.load_subdirs subdirs manifests opened).2.
Proof.
  revert manifests opened.
  induction subdirs as [|[dir_name well_dir] rest IH];
    intros manifests opened Hop f; [apply Hop|].
  cbn [Loader.load_subdirs].
  destruct (Loader._find_manifest_json_in_well_dir _) as [[file_name node]|];
    [|by apply IH].
  assert (Hop' : ∀ g, Loader.InBase g
                      ∉ opened ++ [Loader.InWellDir dir_name file_name]).
  { intros g. rewrite elem_of_app, list_elem_of_singleton.
    intros [Hg|Hg]; [by apply (Hop g)|discriminate]. }
  unfold mbind, Loader.io_bind, Loader.bind, Loader._read_json.
  destruct (Loader.content_of node) as [|[m|]| |]; simpl.
  - apply Hop'.
  - by apply IH.
  - apply Hop'.
  - apply Hop'.
  - apply Hop.
Qed.

Lemma sorted_by_name_nil (l : list (string * Loader.FsNode)) :
  Loader.sorted_by_name l = [] → l = [].
Proof.
  intros H. apply Permutation_nil_r. rewrite <- H.
  symmetry. apply merge_sort_Permutation.
Qed.

(** C7, counterexample: a wells directory with a subdirectory (without any
    JSON file) and a JSON file.  The loader finds no manifest in the
    subdirectory, goes on to the flat layout, opens the file and returns its
    manifest under the key ["W"]. *)
Lemma loader_falls_back_to_flat_layout :
  ¬ (∀ children : list (string * Loader.FsNode),
       filter (λ p, Loader.is_dir p.2 = true) children ≠ [] →
       ∀ f, Loader.InBase f
            ∉ (Loader.run (Loader.load_manifests_from_wells_dir
                             (Some (Loader.FsDir children)))).2).
Proof.
  intros H. apply (H Ex.children_fallback ltac:(by vm_compute) "W.json").
  vm_compute. left.
Qed.

(** C7, amended. For every wells directory with at least one subdirectory:
    if the well directories give at least one manifest, or reading one of
    them fails, the outcome of the loader and the files it opens are those of
    the subdirectory layout alone, none of them a file of the wells
    directory itself; only if the well directories give no manifest at all
    does the loader go on to the flat layout. *)
Theorem subdirectory_layout_exclusive (children : list (string * Loader.FsNode)) :
  filter (λ p, Loader.is_dir p.2 = true) children ≠ [] →
  let subdirs :=
    Loader.sorted_by_name (filter (λ p, Loader.is_dir p.2 = true) children) in
  let loaded :=
    Loader.run (Loader.load_manifests_from_wells_dir
                  (Some (Loader.FsDir children))) in
  match Loader.run (Loader.load_subdirs subdirs []) with
  | (inl e, opened) => loaded = (inl e, opened)
  | (inr (m :: ms), opened) => loaded = (inr (m :: ms), opened)
  | (inr [], opened) => loaded = Loader.case_b children [] opened
  end
  ∧ ∀ f, Loader.InBase f ∉ (Loader.run (Loader.load_subdirs subdirs [])).2.
Proof.
  intros Hsub subdirs loaded. split.
  - unfold loaded, Loader.run, Loader.load_manifests_from_wells_dir.
    fold subdirs. destruct subdirs as [|p ps] eqn:E.
    + by apply sorted_by_name_nil in E.
    + unfold mbind, Loader.io_bind, Loader.bind.
      destruct (Loader.load_subdirs (p :: ps) [] []) as [[e|[|m ms]] opened];
        reflexivity.
  - apply load_subdirs_opens_in_well_dirs. intros f. apply not_elem_of_nil.
Qed.

(** Two well directories, each with a manifest that validates, whose keys
    are the same: both files are opened and the mapping keeps the second
    manifest alone. *)
Lemma load_subdirs_same_key (name1 name2 file1 file2 : string)
    (dir1 dir2 : Loader.FsNode) (c1 c2 : Loader.FsNode) (m1 m2 : Manifest.t) :
  Loader._find_manifest_json_in_well_dir (Loader.children_of dir1)
  = Some (file1, c1) →
  Loader._find_manifest_json_in_well_dir (Loader.children_of dir2)
  = Some (file2, c2) →
  Loader.content_of c1 = Loader.Json (Some m1) →
  Loader.content_of c2 = Loader.Json (Some m2) →
  Loader._normalize_loaded_key name1 m1 = Loader._normalize_loaded_key name2 m2 →
  Loader.run (Loader.load_subdirs [(name1, dir1); (name2, dir2)] [])
  = (inr [(Loader._normalize_loaded_key name2 m2, m2)],
     [Loader.InWellDir name1 file1; Loader.InWellDir name2 file2]).
Proof.
  intros Hf1 Hf2 Hc1 Hc2 Hk. unfold Loader.run. cbn [Loader.load_subdirs].
  rewrite Hf1, Hf2.
  unfold mbind, Loader.io_bind, Loader.bind, Loader._read_json.
  rewrite Hc1. simpl. rewrite Hc2. simpl. rewrite Hk.
  rewrite decide_True by reflexivity. reflexivity.
Qed.

(** C10. Two inputs on which two manifests come under one well key.  In the
    first the directories ["A"] and ["A "] both strip to ["A"]; in the second
    the directory [" "] takes its key from the well id ["15/9-F-1"], which is
    the name of the other directory.  Both manifests are read in each case,
    the loader returns without an error, and the mapping has the one key
    with the manifest read last, so that the index lists one well. *)
Theorem loader_same_key_replaces :
  Loader.run (Loader.load_manifests_from_wells_dir
                (Some (Loader.FsDir Ex.children_same_key)))
  = (inr [("A", Ex.manifest_other)],
     [Loader.InWellDir "A" "manifest.json";
      Loader.InWellDir "A " "manifest.json"])
  ∧ Loader.run (Loader.load_manifests_from_wells_dir
                  (Some (Loader.FsDir Ex.children_derived_key)))
    = (inr [("15_9-F-1", Ex.manifest_a)],
       [Loader.InWellDir " " "manifest.json";
        Loader.InWellDir "15_9-F-1" "manifest.json"])
  ∧ Ex.manifest_a ≠ Ex.manifest_other
  ∧ Index.wells (Index.init [("A", Ex.manifest_other)]) = ["A"].
Proof. vm_compute. repeat split; try reflexivity. discriminate. Qed.

End LoaderFacts.


(* ===================================================================== *)
(** * The theorems with hypotheses, at concrete inputs                    *)
(* ===================================================================== *)

Lemma search_total_and_page_witness :
  Py.strip "b.txt" ≠ EmptyString
  ∧ Forall (λ h, Py.has_char ":" (SearchHit.well_key h) = false)
      (Index._flat Ex.index)
  ∧ ∃ r, Api.search (Some Ex.index) "b.txt" None None 100 0 false true
           "filename" = Ok r
       ∧ SearchResponse.total r
         = Py.len (Spec.final_list (Index._flat Ex.index) "b.txt" None None
                     false true "filename")
       ∧ (Py.len (SearchResponse.results r) ≤ 100)%Z.
Proof.
  assert (Hc : Forall (λ h, Py.has_char ":" (SearchHit.well_key h) = false)
                 (Index._flat Ex.index)) by (repeat constructor).
  split; [by vm_compute|]. split; [exact Hc|].
  destruct (search_total_and_page Ex.index "b.txt" None None 100 0
              false true "filename") as (r & Hr & Ht & _ & Hl).
  - by vm_compute.
  - discriminate.
  - discriminate.
  - by right.
  - by vm_compute.
  - right. right. exact Hc.
  - lia.
  - lia.
  - exists r. split; [exact Hr|]. split; [exact Ht|exact Hl].
Defined.

Lemma underscore_query_matches_slash_witness :
  Py.has_char "_" "15_9-F-9A" = true
  ∧ Py.replace "_" "/" (Py.lower (Py.strip "15_9-F-9A"))
    ≠ Py.lower (Py.strip "15_9-F-9A").
Proof.
  split; [reflexivity|].
  pose proof (underscore_query_matches_slash "15_9-F-9A" None None Ex.hit_b
                eq_refl) as H.
  cbv zeta in H. exact (proj1 (proj2 H)).
Defined.

Lemma search_blank_query_no_match_witness :
  Py.strip "  " = EmptyString
  ∧ Api.search (Some Ex.index) "  " None None 100 0 false true "path"
    = Ok (SearchResponse.mk "  " (None, None) 0 0 100 []).
Proof.
  split; [reflexivity|].
  exact (proj2 (search_blank_query_no_match Ex.index "  " None None 100 0
                  false true "path" eq_refl)).
Defined.

Lemma subdirectory_layout_exclusive_witness :
  filter (λ p, Loader.is_dir p.2 = true) Ex.children_same_key ≠ []
  ∧ ∀ f, Loader.InBase f
         ∉ (Loader.run
              (Loader.load_subdirs
                 (Loader.sorted_by_name
                    (filter (λ p, Loader.is_dir p.2 = true)
                       Ex.children_same_key)) [])).2.
Proof.
  split; [by vm_compute|].
  pose proof (subdirectory_layout_exclusive Ex.children_same_key
                ltac:(by vm_compute)) as H.
  cbv zeta in H. exact (proj2 H).
Defined.


(* ===================================================================== *)
(** * Substrings, case and white space                                    *)
(* ===================================================================== *)

Section Substrings.

Lemma append_nil_r (s : string) : (s ++ EmptyString)%string = s.
Proof.
  induction s as [|c s IH]; [reflexivity|]. by rewrite append_cons, IH.
Qed.

Lemma append_assoc (a b c : string) :
  ((a ++ b) ++ c)%string = (a ++ (b ++ c))%string.
Proof.
  induction a as [|x a IH]; [reflexivity|]. by rewrite !append_cons, IH.
Qed.

Lemma startswith_iff (p s : string) :
  Py.startswith p s = true ↔ ∃ b, s = (p ++ b)%string.
Proof.
  revert s. induction p as [|a p IH]; intros s.
  - simpl. split; [intros _; by exists s|done].
  - destruct s as [|c s]; simpl.
    + split; [discriminate|]. intros (b & Hb). rewrite append_cons in Hb.
      discriminate.
    + destruct (decide (a = c)) as [->|Hne].
      * rewrite IH. split; intros (b & Hb); exists b.
        -- by rewrite append_cons, Hb.
        -- rewrite append_cons in Hb. by injection Hb.
      * split; [discriminate|]. intros (b & Hb). rewrite append_cons in Hb.
        injection Hb as ? _. congruence.
Qed.

(** [needle in hay] holds exactly when [hay] is [needle] between two
    strings. *)
Lemma contains_iff (needle hay : string) :
  Py.contains needle hay = true
  ↔ ∃ a b, hay = (a ++ needle ++ b)%string.
Proof.
  induction hay as [|c hay IH].
  - simpl. destruct (Py.startswith needle EmptyString) eqn:E.
    + split; [intros _|done]. apply startswith_iff in E as (b & Hb).
      by exists EmptyString, b.
    + split; [discriminate|]. intros ([|x a] & b & Hab).
      * assert (Py.startswith needle EmptyString = true)
          by (apply startswith_iff; by exists b).
        congruence.
      * rewrite append_cons in Hab. discriminate.
  - cbn [Py.contains]. destruct (Py.startswith needle (String c hay)) eqn:E.
    + split; [intros _|done]. apply startswith_iff in E as (b & Hb).
      by exists EmptyString, b.
    + rewrite IH. split.
      * intros (a & b & ->). exists (String c a), b. by rewrite append_cons.
      * intros ([|x a] & b & Hab).
        -- assert (Py.startswith needle (String c hay) = true)
             by (apply startswith_iff; by exists b).
           congruence.
        -- rewrite append_cons in Hab. injection Hab as _ ->. by exists a, b.
Qed.

Lemma lower_append (a b : string) :
  Py.lower (a ++ b) = (Py.lower a ++ Py.lower b)%string.
Proof.
  induction a as [|c a IH]; [reflexivity|].
  rewrite append_cons. simpl. by rewrite IH, append_cons.
Qed.

Lemma contains_lower (needle hay : string) :
  Py.contains needle hay = true →
  Py.contains (Py.lower needle) (Py.lower hay) = true.
Proof.
  rewrite !contains_iff. intros (a & b & ->).
  exists (Py.lower a), (Py.lower b). by rewrite !lower_append.
Qed.

Lemma lstrip_suffix (s : string) : ∃ a, s = (a ++ Py.lstrip s)%string.
Proof.
  induction s as [|c s (a & IH)]; [by exists EmptyString|]. simpl.
  destruct (Py.isspace c); [|by exists EmptyString].
  exists (String c a). by rewrite append_cons, <- IH.
Qed.

Lemma rstrip_prefix (s : string) : ∃ b, s = (Py.rstrip s ++ b)%string.
Proof.
  induction s as [|c s (b & IH)]; [by exists EmptyString|]. simpl.
  destruct (Py.rstrip s) as [|d r] eqn:E.
  - destruct (Py.isspace c).
    + exists (String c s). reflexivity.
    + exists b. by rewrite append_cons, <- IH.
  - exists b. by rewrite append_cons, <- IH.
Qed.

(** A string contains its own strip. *)
Lemma contains_strip (s : string) : Py.contains (Py.strip s) s = true.
Proof.
  apply contains_iff. destruct (lstrip_suffix s) as (a & Ha).
  destruct (rstrip_prefix (Py.lstrip s)) as (b & Hb).
  exists a, b. unfold Py.strip. by rewrite <- Hb.
Qed.

Lemma isspace_lower_char (c : ascii) :
  Py.isspace (Py.lower_char c) = Py.isspace c.
Proof. destruct c as [[] [] [] [] [] [] [] []]; reflexivity. Qed.

Lemma lower_char_idem (c : ascii) :
  Py.lower_char (Py.lower_char c) = Py.lower_char c.
Proof. destruct c as [[] [] [] [] [] [] [] []]; reflexivity. Qed.

Lemma lower_idem (s : string) : Py.lower (Py.lower s) = Py.lower s.
Proof.
  induction s as [|c s IH]; [reflexivity|]. simpl.
  by rewrite lower_char_idem, IH.
Qed.

Lemma lstrip_lower (s : string) : Py.lstrip (Py.lower s) = Py.lower (Py.lstrip s).
Proof.
  induction s as [|c s IH]; [reflexivity|]. simpl.
  rewrite isspace_lower_char. destruct (Py.isspace c); [exact IH|reflexivity].
Qed.

Lemma rstrip_lower (s : string) : Py.rstrip (Py.lower s) = Py.lower (Py.rstrip s).
Proof.
  induction s as [|c s IH]; [reflexivity|]. simpl.
  rewrite IH, isspace_lower_char.
  destruct (Py.rstrip s); simpl; [destruct (Py.isspace c)|]; reflexivity.
Qed.

Lemma strip_lower (s : string) : Py.strip (Py.lower s) = Py.lower (Py.strip s).
Proof. unfold Py.strip. by rewrite lstrip_lower, rstrip_lower. Qed.

End Substrings.


(* ===================================================================== *)
(** * What a search returns                                               *)
(* ===================================================================== *)

Section SearchResults.

Lemma Forall_sublist_of {A} (P : A → Prop) (l k : list A) :
  l `sublist_of` k → Forall P k → Forall P l.
Proof.
  induction 1 as [|x l k _ IH|x l k _ IH]; intros Hk; [constructor|..];
    apply Forall_cons in Hk as [Hx Hk]; [constructor|]; auto.
Qed.

Lemma slice_sublist {A} (l : list A) (start stop : Z) :
  Py.slice l start stop `sublist_of` l.
Proof.
  unfold Py.slice. etrans; [apply sublist_take|apply sublist_drop].
Qed.

(** The query counts only after stripping and lowering: a lowered or a
    stripped query gets from the index the answer of the query itself, and
    from the search endpoint a body with the same total and the same page,
    which differs only in the query that it echoes. *)
Theorem search_query_normalised (idx : Index.ManifestIndex) (q : string)
    (well_key bucket : option string) (limit offset : Z)
    (include_dirs dedupe : bool) (dedupe_key : string) :
  Index.search idx (Py.lower q) well_key bucket limit offset
  = Index.search idx q well_key bucket limit offset
  ∧ Index.search idx (Py.strip q) well_key bucket limit offset
    = Index.search idx q well_key bucket limit offset
  ∧ Api.search_results idx (Py.lower q) well_key bucket include_dirs dedupe
      dedupe_key
    = Api.search_results idx q well_key bucket include_dirs dedupe dedupe_key
  ∧ Api.search_results idx (Py.strip q) well_key bucket include_dirs dedupe
      dedupe_key
    = Api.search_results idx q well_key bucket include_dirs dedupe dedupe_key
  ∧ ∃ r rl rs,
      Api.search (Some idx) q well_key bucket limit offset
        include_dirs dedupe dedupe_key = Ok r
      ∧ Api.search (Some idx) (Py.lower q) well_key bucket limit offset
          include_dirs dedupe dedupe_key = Ok rl
      ∧ Api.search (Some idx) (Py.strip q) well_key bucket limit offset
          include_dirs dedupe dedupe_key = Ok rs
      ∧ rl = SearchResponse.mk (Py.lower q) (SearchResponse.filters r)
               (SearchResponse.total r) (SearchResponse.offset r)
               (SearchResponse.limit r) (SearchResponse.results r)
      ∧ rs = SearchResponse.mk (Py.strip q) (SearchResponse.filters r)
               (SearchResponse.total r) (SearchResponse.offset r)
               (SearchResponse.limit r) (SearchResponse.results r)
      ∧ SearchResponse.query r = q.
Proof.
  assert (H1 : ∀ l o, Index.search idx (Py.lower q) well_key bucket l o
                      = Index.search idx q well_key bucket l o).
  { intros l o. unfold Index.search. by rewrite strip_lower, lower_idem. }
  assert (H2 : ∀ l o, Index.search idx (Py.strip q) well_key bucket l o
                      = Index.search idx q well_key bucket l o).
  { intros l o. unfold Index.search. by rewrite strip_idem. }
  assert (H3 : Api.search_results idx (Py.lower q) well_key bucket
                 include_dirs dedupe dedupe_key
               = Api.search_results idx q well_key bucket include_dirs dedupe
                   dedupe_key)
    by (unfold Api.search_results; by rewrite H1).
  assert (H4 : Api.search_results idx (Py.strip q) well_key bucket
                 include_dirs dedupe dedupe_key
               = Api.search_results idx q well_key bucket include_dirs dedupe
                   dedupe_key)
    by (unfold Api.search_results; by rewrite H2).
  split; [apply H1|]. split; [apply H2|]. split; [exact H3|].
  split; [exact H4|].
  unfold Api.search. simpl Api._get_index. cbv iota beta zeta.
  rewrite H3, H4. do 3 eexists. repeat (split; [reflexivity|]). reflexivity.
Qed.

(** Every entry that the endpoints return for a query comes from an entry
    of the flat index that the function [hit] accepts; none is a directory
    unless directories were asked for; and with deduplication no two of them
    have the same key.  This holds for every index and every query. *)
Theorem search_results_sound (idx : Index.ManifestIndex) (q : string)
    (well_key bucket : option string) (include_dirs dedupe : bool)
    (dedupe_key : string) :
  Forall (λ e, ∃ h, h ∈ Index._flat idx ∧ e = Api._hit_to_entry h
                    ∧ Index.hit (Py.lower (Py.strip q)) well_key bucket h = true
                    ∧ (include_dirs = true ∨ FileEntry.type e ≠ directory))
    (Api.search_results idx q well_key bucket include_dirs dedupe dedupe_key)
  ∧ (if dedupe
     then NoDup (Api.dedupe_k dedupe_key <$>
                   Api.search_results idx q well_key bucket include_dirs dedupe
                     dedupe_key)
     else True).
Proof.
  unfold Api.search_results.
  destruct (Index.search idx q well_key bucket 999999 0) as [total hits] eqn:E.
  assert (Hhits : Forall (λ h, h ∈ Index._flat idx
                    ∧ Index.hit (Py.lower (Py.strip q)) well_key bucket h = true)
                    hits).
  { unfold Index.search in E.
    destruct (negb (Py.truthy (Py.lower (Py.strip q)))).
    - injection E as _ <-. constructor.
    - injection E as _ <-.
      eapply Forall_sublist_of; [apply slice_sublist|].
      apply Forall_forall. intros h Hh.
      apply list_elem_of_filter in Hh. tauto. }
  set (entries := Api._hit_to_entry <$> filter _ hits).
  assert (Hentries : Forall (λ e, ∃ h, h ∈ Index._flat idx
                    ∧ e = Api._hit_to_entry h
                    ∧ Index.hit (Py.lower (Py.strip q)) well_key bucket h = true
                    ∧ (include_dirs = true ∨ FileEntry.type e ≠ directory))
                    entries).
  { unfold entries. apply Forall_fmap, Forall_forall. intros h Hh.
    apply list_elem_of_filter in Hh as [Hdir Hh].
    rewrite Forall_forall in Hhits. destruct (Hhits h Hh) as [Hflat Hhit].
    exists h. simpl. tauto. }
  destruct dedupe.
  - rewrite dedupe_results_first_occurrences, first_occurrences_rec. split.
    + eapply Forall_sublist_of; [apply first_occ_from_sublist|exact Hentries].
    + apply first_occ_from_fresh.
  - split; [exact Hentries|exact I].
Qed.

(** An entry is found under each of its own fields: the file name, the
    path, the bucket name, the well key, the well id and every tag, in any
    case and with white space around, provided the field is not blank. *)
Theorem search_finds_entry_by_field (idx : Index.ManifestIndex)
    (h : SearchHit.t) (f : string) :
  h ∈ Index._flat idx →
  f ∈ [SearchHit.filename h; SearchHit.path h; SearchHit.bucket h;
       SearchHit.well_key h; SearchHit.well_id h] ++ SearchHit.tags h →
  Py.strip f ≠ EmptyString →
  Index.hit (Py.lower (Py.strip f)) None None h = true
  ∧ h ∈ (Index.search idx f None None (Py.len (Index._flat idx)) 0).2.
Proof.
  intros Hflat Hf Hne.
  assert (Hc : Py.contains (Py.lower (Py.strip f)) (Py.lower f) = true)
    by apply contains_lower, contains_strip.
  assert (Hhit : Index.hit (Py.lower (Py.strip f)) None None h = true).
  { rewrite hit_decompose. simpl.
    unfold Spec.text_match, Spec.plain_match.
    rewrite !orb_true_iff. left.
    rewrite elem_of_app, !elem_of_cons in Hf.
    destruct Hf as [[->|[->|[->|[->|[->|Hf]]]]]|Htag]; auto 10.
    - by apply elem_of_nil in Hf.
    - right. apply existsb_exists. exists f.
      split; [by apply list_elem_of_In|exact Hc]. }
  split; [exact Hhit|].
  rewrite index_search_nonblank by assumption. cbv zeta. simpl.
  rewrite slice_all.
  - apply list_elem_of_filter. by split.
  - unfold Py.len. pose proof (length_filter
      (λ h0, Index.hit (Py.lower (Py.strip f)) None None h0 = true)
      (Index._flat idx)). lia.
Qed.

End SearchResults.


(* ===================================================================== *)
(** * Pages                                                               *)
(* ===================================================================== *)

Section Pages.

Lemma paginate_concat {A} (l : list A) (offset k1 k2 : Z) :
  (0 ≤ offset)%Z → (0 ≤ k1)%Z → (0 ≤ k2)%Z →
  Spec.paginate l offset k1 ++ Spec.paginate l (offset + k1) k2
  = Spec.paginate l offset (k1 + k2).
Proof.
  intros Ho H1 H2. unfold Spec.paginate.
  rewrite !Z2Nat.inj_add by lia. rewrite <- drop_drop.
  apply take_take_drop.
Qed.

Lemma paginate_beyond {A} (l : list A) (offset limit : Z) :
  (0 ≤ offset)%Z → (Py.len l ≤ offset)%Z → Spec.paginate l offset limit = [].
Proof.
  intros Ho Hl. unfold Spec.paginate, Py.len in *.
  rewrite drop_ge by lia. apply take_nil.
Qed.

Lemma paginate_len {A} (l : list A) (offset limit : Z) :
  (0 ≤ offset)%Z → (0 ≤ limit)%Z →
  Py.len (Spec.paginate l offset limit)
  = Z.min limit (Z.max 0 (Py.len l - offset)).
Proof.
  intros Ho Hl. unfold Spec.paginate, Py.len.
  rewrite length_take, length_drop. lia.
Qed.

(** The search endpoint on a loaded index, in one equation. *)
Lemma search_response (idx : Index.ManifestIndex) (q : string)
    (well_key bucket : option string) (limit offset : Z)
    (include_dirs dedupe : bool) (dedupe_key : string) :
  Api.search (Some idx) q well_key bucket limit offset
    include_dirs dedupe dedupe_key
  = let results :=
      Api.search_results idx q well_key bucket include_dirs dedupe dedupe_key in
    Ok (SearchResponse.mk q (well_key, bucket) (Py.len results) offset limit
          (Py.slice results offset (offset + limit))).
Proof. reflexivity. Qed.

(** Paging through a search loses and repeats nothing: for one query and
    one set of filters every page reports the same total, the page at
    [offset] of size [k1] followed by the page at [offset + k1] of size [k2]
    is the page at [offset] of size [k1 + k2], a page has
    [min(limit, max(0, total - offset))] entries, and an offset at or beyond
    the total gives an empty page with that total, not an error. *)
Theorem search_pages_concatenate (idx : Index.ManifestIndex) (q : string)
    (well_key bucket : option string) (offset k1 k2 : Z)
    (include_dirs dedupe : bool) (dedupe_key : string) :
  (0 ≤ offset)%Z → (0 ≤ k1)%Z → (0 ≤ k2)%Z →
  ∃ r1 r2 r12,
    Api.search (Some idx) q well_key bucket k1 offset
      include_dirs dedupe dedupe_key = Ok r1
    ∧ Api.search (Some idx) q well_key bucket k2 (offset + k1)
        include_dirs dedupe dedupe_key = Ok r2
    ∧ Api.search (Some idx) q well_key bucket (k1 + k2) offset
        include_dirs dedupe dedupe_key = Ok r12
    ∧ SearchResponse.total r1 = SearchResponse.total r12
    ∧ SearchResponse.total r2 = SearchResponse.total r12
    ∧ SearchResponse.results r1 ++ SearchResponse.results r2
      = SearchResponse.results r12
    ∧ Py.len (SearchResponse.results r1)
      = Z.min k1 (Z.max 0 (SearchResponse.total r1 - offset))
    ∧ ((SearchResponse.total r1 ≤ offset)%Z → SearchResponse.results r1 = []).
Proof.
  intros Ho H1 H2. rewrite !search_response. cbv zeta.
  do 3 eexists. split; [reflexivity|]. split; [reflexivity|].
  split; [reflexivity|]. simpl.
  rewrite !slice_from_zero by lia.
  split; [reflexivity|]. split; [reflexivity|].
  split; [by apply paginate_concat|].
  split; [by apply paginate_len|]. intros Hge. by apply paginate_beyond.
Qed.

End Pages.

(* ===================================================================== *)
(** * Well listings and summaries                                         *)
(* ===================================================================== *)

Section Wells.

Lemma get_is_Some {V} (d : Py.dict V) (k : string) :
  k ∈ Py.keys d ↔ is_Some (Py.get d k).
Proof.
  unfold Py.keys. induction d as [|[k' v] d IH]; simpl.
  - rewrite elem_of_nil. split; [done|]. by intros [? ?].
  - rewrite elem_of_cons. destruct (decide (k' = k)) as [->|Hne].
    + split; [eauto|auto].
    + rewrite <- IH. split; [intros [?|?]; [congruence|done]|auto].
Qed.

Lemma mem_true {V} (d : Py.dict V) (k : string) :
  Py.mem k d = true ↔ k ∈ Py.keys d.
Proof.
  rewrite get_is_Some. unfold Py.mem.
  destruct (Py.get d k); split; intros H; try done; eauto.
Qed.

Lemma get_elem_of {V} (d : Py.dict V) (k : string) (v : V) :
  Py.get d k = Some v → (k, v) ∈ d.
Proof.
  induction d as [|[k' v'] d IH]; simpl; [done|].
  destruct (decide (k' = k)) as [->|Hne].
  - intros [= ->]. left.
  - intros H. right. auto.
Qed.

Lemma list_wells_response (manifests : Py.dict Manifest.t) :
  Api.list_wells (Some (Index.init manifests))
  = Ok (WellsResponse.mk (Py.len manifests) (Py.sorted (Py.keys manifests))).
Proof.
  unfold Api.list_wells. simpl. do 2 f_equal. unfold Py.len, Py.sorted.
  rewrite (Permutation_length (merge_sort_Permutation _ _)).
  unfold Py.keys. by rewrite length_fmap.
Qed.

(** The well listing: the keys of the manifests, each once for each time it
    is a key, in ascending order; the count is the number of manifests. *)
Theorem wells_sorted_keys (manifests : Py.dict Manifest.t)
    (source_dir : string) :
  let idx := Index.init manifests in
  StronglySorted String.le (Index.wells idx)
  ∧ Index.wells idx ≡ₚ Py.keys manifests
  ∧ Api.list_wells (Some idx)
    = Ok (WellsResponse.mk (Py.len manifests) (Index.wells idx))
  ∧ Api.health (Some idx) source_dir
    = HealthResponse.mk (Py.len manifests) (Py.len manifests) source_dir.
Proof.
  intros idx. unfold idx, Index.init, Index.wells. simpl.
  split; [apply StronglySorted_merge_sort; apply _|].
  assert (Hp : Py.sorted (Py.keys manifests) ≡ₚ Py.keys manifests)
    by apply merge_sort_Permutation.
  split; [exact Hp|]. split; [apply list_wells_response|reflexivity].
Qed.

Lemma summary_of_key (idx : Index.ManifestIndex) (k : string) (s : WellSummary.t) :
  Index.summary idx k = Some s →
  WellSummary.well_key s = k
  ∧ WellSummary.total_files s = Py.sum (Py.values (WellSummary.bucket_counts s)).
Proof.
  unfold Index.summary. destruct (Py.get (Index.manifests idx) k); [|done].
  intros [= <-]. done.
Qed.

(** The summary listing never fails on an index built from manifests: it
    answers with the number of wells as total and one summary for each key
    of the page of the sorted keys, in that order, each with a file total
    that is the sum of its bucket counts. *)
Theorem summary_listing (manifests : Py.dict Manifest.t) (limit offset : Z) :
  let idx := Index.init manifests in
  ∃ body,
    Api.summary (Some idx) limit offset = Ok body
    ∧ SummaryListResponse.total body = Py.len manifests
    ∧ WellSummary.well_key <$> SummaryListResponse.wells body
      = Py.slice (Index.wells idx) offset (offset + limit)
    ∧ SummaryListResponse.count body = Py.len (SummaryListResponse.wells body)
    ∧ Forall (λ s, WellSummary.total_files s
                   = Py.sum (Py.values (WellSummary.bucket_counts s)))
        (SummaryListResponse.wells body).
Proof.
  intros idx. unfold Api.summary. simpl Api._get_index. cbv iota beta zeta.
  set (page_keys := Py.slice (Index.wells idx) offset (offset + limit)).
  assert (Hkeys : Forall (λ k, k ∈ Py.keys manifests) page_keys).
  { eapply Forall_sublist_of; [apply slice_sublist|].
    apply Forall_forall. intros k Hk.
    unfold idx, Index.init, Index.wells in Hk. simpl in Hk.
    unfold Py.sorted in Hk. by rewrite merge_sort_Permutation in Hk. }
  assert (Hsome : is_Some (mapM (Index.summary idx) page_keys)).
  { apply mapM_is_Some_2. eapply Forall_impl; [exact Hkeys|].
    intros k Hk. simpl. apply get_is_Some in Hk as [m Hm].
    unfold Index.summary. simpl. rewrite Hm. eauto. }
  destruct Hsome as [summaries Hs]. rewrite Hs.
  apply mapM_Some_1 in Hs.
  eexists. split; [reflexivity|]. simpl.
  split.
  { unfold Py.len. unfold Py.sorted.
    rewrite (Permutation_length (merge_sort_Permutation _ _)).
    unfold Py.keys. by rewrite length_fmap. }
  split.
  { clear Hkeys. induction Hs as [|k s ks ss Hk _ IH]; [reflexivity|].
    rewrite fmap_cons, IH. f_equal. by apply summary_of_key in Hk as [-> _]. }
  split; [reflexivity|].
  clear Hkeys. induction Hs as [|k s ks ss Hk _ IH]; constructor; [|exact IH].
  by apply summary_of_key in Hk as [_ ->].
Qed.

End Wells.


(* ===================================================================== *)
(** * The endpoints of one well                                           *)
(* ===================================================================== *)

Section OneWell.

(** For an unknown well key every endpoint of one well answers 404
    ["Unknown well_key"], whatever the other parameters are; the index
    methods [summary], [buckets] and [foreign_refs], which have no value for
    such a key ([KeyError]), are not reached. *)
Theorem unknown_well_not_found (idx : Index.ManifestIndex)
    (well_key bucket_name q : string) (bucket : option string)
    (limit offset : Z) (include_dirs dedupe : bool) (dedupe_key : string) :
  Py.get (Index.manifests idx) well_key = None →
  Api.well_summary (Some idx) well_key = HTTPException 404 "Unknown well_key"
  ∧ Api.well_buckets (Some idx) well_key = HTTPException 404 "Unknown well_key"
  ∧ Api.bucket_files (Some idx) well_key bucket_name limit offset
    = HTTPException 404 "Unknown well_key"
  ∧ Api.foreign_references (Some idx) well_key
    = HTTPException 404 "Unknown well_key"
  ∧ Api.search_in_well (Some idx) well_key q bucket limit offset
      include_dirs dedupe dedupe_key
    = HTTPException 404 "Unknown well_key"
  ∧ Index.summary idx well_key = None
  ∧ Index.buckets idx well_key = None
  ∧ Index.foreign_refs idx well_key = None.
Proof.
  intros Hk.
  unfold Api.well_summary, Api.well_buckets, Api.bucket_files,
    Api.foreign_references, Api.search_in_well, Index.summary, Index.buckets,
    Index.foreign_refs, Py.mem.
  simpl. rewrite Hk. simpl. repeat split; reflexivity.
Qed.

(** For a known well the endpoints agree with each other and with the
    manifest: the summary carries the key, a file total that is the sum of
    its bucket counts, and the number of foreign references that the
    foreign reference endpoint lists; the bucket names are those of the
    manifest in ascending order; and the search in the well is the search
    with that well as filter. *)
Theorem known_well_endpoints_agree (idx : Index.ManifestIndex)
    (well_key q : string) (m : Manifest.t) (bucket : option string)
    (limit offset : Z) (include_dirs dedupe : bool) (dedupe_key : string) :
  Py.get (Index.manifests idx) well_key = Some m →
  ∃ s b f,
    Api.well_summary (Some idx) well_key = Ok s
    ∧ Api.well_buckets (Some idx) well_key = Ok b
    ∧ Api.foreign_references (Some idx) well_key = Ok f
    ∧ WellSummary.well_key s = well_key
    ∧ WellSummary.total_files s = Py.sum (Py.values (WellSummary.bucket_counts s))
    ∧ WellSummary.foreign_reference_count s = ForeignReferencesResponse.count f
    ∧ ForeignReferencesResponse.count f
      = Py.len (ForeignReferencesResponse.references f)
    ∧ ForeignReferencesResponse.references f = default [] (Manifest.foreign_ref m)
    ∧ StronglySorted String.le (BucketsResponse.buckets b)
    ∧ BucketsResponse.buckets b ≡ₚ Py.keys (Manifest.buckets m)
    ∧ Api.search_in_well (Some idx) well_key q bucket limit offset
        include_dirs dedupe dedupe_key
      = Api.search (Some idx) q (Some well_key) bucket limit offset
          include_dirs dedupe dedupe_key.
Proof.
  intros Hk.
  unfold Api.well_summary, Api.well_buckets, Api.foreign_references,
    Api.search_in_well, Api.search, Index.summary, Index.buckets,
    Index.foreign_refs, Py.mem.
  simpl. rewrite Hk. simpl.
  do 3 eexists. repeat (split; [reflexivity|]). simpl.
  split; [apply StronglySorted_merge_sort; apply _|].
  split; [apply merge_sort_Permutation|reflexivity].
Qed.

Lemma build_bucket_length (well_key well_id bucket_name : string)
    (entries : list ManifestNode.t) :
  length (Index._build_bucket well_key well_id bucket_name entries)
  = length (filter (λ e, ManifestNode.path e ≠ EmptyString) entries).
Proof.
  induction entries as [|e es IH]; [reflexivity|].
  change (e :: es) with ([e] ++ es).
  rewrite build_bucket_app, length_app, IH, filter_app, length_app. f_equal.
  unfold Index._build_bucket. simpl.
  destruct (ManifestNode.path e) eqn:E; simpl.
  - rewrite filter_cons_False by (rewrite E; auto). reflexivity.
  - rewrite filter_cons_True by (by rewrite E). reflexivity.
Qed.

Lemma build_well_length (well_key : string) (m : Manifest.t) :
  length (Index._build_well well_key m)
  = length (filter (λ e, ManifestNode.path e ≠ EmptyString)
              (concat (Py.values (Manifest.buckets m)))).
Proof.
  unfold Index._build_well. generalize (Manifest.buckets m). intros bs.
  induction bs as [|[b es] bs IH]; [reflexivity|]. simpl.
  rewrite length_app, filter_app, length_app, build_bucket_length.
  f_equal. exact IH.
Qed.

Lemma derived_counts_sum (bs : Py.dict (list ManifestNode.t)) :
  Py.sum (Py.values ((λ '(k, v), (k, Py.len v)) <$> bs))
  = Py.len (concat (Py.values bs)).
Proof.
  unfold Py.sum, Py.len, Py.values.
  induction bs as [|[b es] bs IH]; [reflexivity|].
  rewrite !fmap_cons. cbn [foldr concat snd]. rewrite IH, length_app. lia.
Qed.

(** When the manifest carries no bucket counts of its own (none, or an
    empty mapping), the summary counts the nodes of the buckets, those with
    an empty path included: the file total is the number of nodes, the well
    has at most that many entries in the flat index, and exactly that many
    if no node has an empty path. *)
Theorem summary_counts_every_node (idx : Index.ManifestIndex)
    (well_key : string) (m : Manifest.t) :
  Py.get (Index.manifests idx) well_key = Some m →
  Manifest.bucket_counts m = None ∨ Manifest.bucket_counts m = Some [] →
  let nodes := concat (Py.values (Manifest.buckets m)) in
  ∃ s, Index.summary idx well_key = Some s
       ∧ WellSummary.bucket_counts s
         = (λ '(k, v), (k, Py.len v)) <$> Manifest.buckets m
       ∧ WellSummary.total_files s = Py.len nodes
       ∧ (Py.len (Index._build_well well_key m) ≤ WellSummary.total_files s)%Z
       ∧ (Forall (λ e, ManifestNode.path e ≠ EmptyString) nodes →
          Py.len (Index._build_well well_key m) = WellSummary.total_files s).
Proof.
  intros Hk Hc nodes. unfold Index.summary. rewrite Hk.
  eexists. split; [reflexivity|]. simpl.
  assert (Hcounts : Index.counts_or (Manifest.bucket_counts m) (Manifest.buckets m)
                    = (λ '(k, v), (k, Py.len v)) <$> Manifest.buckets m)
    by (destruct Hc as [-> | ->]; reflexivity).
  rewrite Hcounts, derived_counts_sum. fold nodes.
  split; [reflexivity|]. split; [reflexivity|].
  unfold Py.len. rewrite build_well_length. fold nodes. split.
  - pose proof (length_filter (λ e, ManifestNode.path e ≠ EmptyString) nodes).
    lia.
  - intros Hall. f_equal. f_equal.
    clear -Hall. induction Hall as [|e es He _ IH]; [reflexivity|].
    by rewrite filter_cons_True, IH.
Qed.

End OneWell.


(* ===================================================================== *)
(** * The flat index against the manifests                                *)
(* ===================================================================== *)

Section FlatIndex.

Lemma build_bucket_keys (well_key well_id bucket_name : string)
    (entries : list ManifestNode.t) :
  Forall (λ h, SearchHit.well_key h = well_key
               ∧ SearchHit.well_id h = well_id
               ∧ SearchHit.bucket h = bucket_name)
    (Index._build_bucket well_key well_id bucket_name entries).
Proof.
  unfold Index._build_bucket. apply Forall_flat_map, Forall_forall.
  intros e _. destruct (negb _); repeat constructor.
Qed.

Lemma build_well_keys (well_key : string) (m : Manifest.t) :
  Forall (λ h, SearchHit.well_key h = well_key
               ∧ SearchHit.bucket h ∈ Py.keys (Manifest.buckets m))
    (Index._build_well well_key m).
Proof.
  unfold Index._build_well. apply Forall_flat_map, Forall_forall.
  intros [b es] Hb. eapply Forall_impl; [apply build_bucket_keys|].
  intros h (? & _ & ->). split; [done|].
  apply list_elem_of_fmap. by exists (b, es).
Qed.

Lemma filter_none {A} (P : A → Prop) `{!∀ x, Decision (P x)} (l : list A) :
  Forall (λ x, ¬ P x) l → filter P l = [].
Proof.
  induction 1 as [|x l Hx _ IH]; [reflexivity|].
  by rewrite filter_cons_False.
Qed.

Lemma filter_all {A} (P : A → Prop) `{!∀ x, Decision (P x)} (l : list A) :
  Forall P l → filter P l = l.
Proof.
  induction 1 as [|x l Hx _ IH]; [reflexivity|].
  by rewrite filter_cons_True, IH.
Qed.

(** The entries of one bucket among those of its well. *)
Lemma build_well_bucket (well_key bucket_name : string) (m : Manifest.t)
    (nodes : list ManifestNode.t) :
  NoDup (Py.keys (Manifest.buckets m)) →
  Py.get (Manifest.buckets m) bucket_name = Some nodes →
  filter (λ h, SearchHit.well_key h = well_key
               ∧ SearchHit.bucket h = bucket_name)
    (Index._build_well well_key m)
  = Index._build_bucket well_key
      (Index.str_or (Manifest.well_id m) (Py.replace "_" "/" well_key))
      bucket_name nodes.
Proof.
  unfold Index._build_well.
  generalize (Index.str_or (Manifest.well_id m) (Py.replace "_" "/" well_key)).
  intros wid. generalize (Manifest.buckets m). intros bs.
  induction bs as [|[b es] bs IH]; [discriminate|].
  unfold Py.keys. rewrite fmap_cons. intros Hnd Hget.
  apply NoDup_cons in Hnd as [Hb Hnd]. simpl in Hb, Hget.
  cbn [flat_map]. rewrite filter_app.
  destruct (decide (b = bucket_name)) as [->|Hne].
  - injection Hget as ->.
    rewrite filter_all, filter_none; [by rewrite app_nil_r| |].
    + apply Forall_flat_map, Forall_forall. intros [b' es'] Hb'.
      eapply Forall_impl; [apply build_bucket_keys|].
      intros h (_ & _ & Hhb) [_ Heq]. apply Hb.
      apply list_elem_of_fmap. exists (b', es'). split; [|done]. simpl.
      congruence.
    + eapply Forall_impl; [apply build_bucket_keys|].
      intros h (? & _ & ?). done.
  - rewrite filter_none, (IH Hnd Hget); [reflexivity|].
    eapply Forall_impl; [apply build_bucket_keys|].
    intros h (_ & _ & Hhb) [_ Heq]. congruence.
Qed.

(** In an index built from manifests (keys unique, as in a mapping), the
    listing of a bucket that the manifest has is made of the nodes of that
    bucket and of nothing else: one entry per node with a non-empty path, in
    the order of the manifest, so that the total is at most the number of
    nodes of the bucket. *)
Theorem bucket_listing_from_manifest (manifests : Py.dict Manifest.t)
    (well_key bucket_name : string) (m : Manifest.t)
    (nodes : list ManifestNode.t) (limit offset : Z) :
  NoDup (Py.keys manifests) →
  Py.get manifests well_key = Some m →
  NoDup (Py.keys (Manifest.buckets m)) →
  Py.get (Manifest.buckets m) bucket_name = Some nodes →
  let built :=
    Index._build_bucket well_key
      (Index.str_or (Manifest.well_id m) (Py.replace "_" "/" well_key))
      bucket_name nodes in
  Index.bucket_files (Index.init manifests) well_key bucket_name = Some built
  ∧ SearchHit.path <$> built
    = filter (λ p, p ≠ EmptyString) (ManifestNode.path <$> nodes)
  ∧ Api.bucket_files (Some (Index.init manifests)) well_key bucket_name
      limit offset
    = Ok (BucketFilesResponse.mk well_key bucket_name (Py.len built)
            offset limit
            (Api._hit_to_entry <$> Py.slice built offset (offset + limit)))
  ∧ (Py.len built ≤ Py.len nodes)%Z.
Proof.
  intros Hnd Hget Hbnd Hbget built.
  assert (Hflat : filter (λ h, SearchHit.well_key h = well_key
                               ∧ SearchHit.bucket h = bucket_name)
                    (Index._build manifests) = built).
  { clear limit offset. unfold Index._build. revert Hnd Hget.
    induction manifests as [|[k m'] ms IH]; [discriminate|].
    unfold Py.keys. rewrite fmap_cons. intros Hnd Hget.
    apply NoDup_cons in Hnd as [Hk Hnd]. simpl in Hk, Hget.
    cbn [flat_map]. rewrite filter_app.
    destruct (decide (k = well_key)) as [->|Hne].
    - injection Hget as ->.
      rewrite (build_well_bucket _ _ _ _ Hbnd Hbget), filter_none;
        [by rewrite app_nil_r|].
      apply Forall_flat_map, Forall_forall. intros [k' m'] Hk'.
      eapply Forall_impl; [apply build_well_keys|].
      intros h [Hhk _] [Heq _]. apply Hk.
      apply list_elem_of_fmap. exists (k', m'). split; [|done]. simpl.
      congruence.
    - rewrite filter_none, (IH Hnd Hget); [reflexivity|].
      eapply Forall_impl; [apply build_well_keys|].
      intros h [Hhk _] [Heq _]. congruence. }
  assert (Hmem : Py.mem well_key manifests = true)
    by (unfold Py.mem; by rewrite Hget).
  split; [unfold Index.bucket_files; simpl; by rewrite Hflat|].
  split.
  { unfold built. generalize (Index.str_or (Manifest.well_id m)
      (Py.replace "_" "/" well_key)). intros wid. clear.
    induction nodes as [|e es IH]; [reflexivity|].
    change (e :: es) with ([e] ++ es).
    rewrite build_bucket_app, !fmap_app, filter_app, IH. f_equal.
    unfold Index._build_bucket. simpl.
    destruct (ManifestNode.path e) eqn:E; simpl.
    - by rewrite filter_cons_False by auto.
    - by rewrite filter_cons_True by done. }
  split.
  { rewrite bucket_files_always_ok by exact Hmem. simpl. by rewrite Hflat. }
  unfold Py.len, built. rewrite build_bucket_length.
  pose proof (length_filter (λ e, ManifestNode.path e ≠ EmptyString) nodes).
  lia.
Qed.

(** The flat index keeps the order of the input: the entries of the wells
    follow each other in the order of the mapping, and so do the entries of
    the buckets within a well; the index has one entry for each node with a
    non-empty path. *)
Theorem build_in_source_order (manifests ms1 ms2 : Py.dict Manifest.t)
    (well_key well_id : string) (bs1 bs2 : Py.dict (list ManifestNode.t))
    (counts : option (Py.dict Z)) (refs : option (list string)) :
  Index._build (ms1 ++ ms2) = Index._build ms1 ++ Index._build ms2
  ∧ Index._build_well well_key (Manifest.mk well_id (bs1 ++ bs2) counts refs)
    = Index._build_well well_key (Manifest.mk well_id bs1 counts refs)
      ++ Index._build_well well_key (Manifest.mk well_id bs2 counts refs)
  ∧ Py.len (Index._flat (Index.init manifests))
    = Py.len
        (filter (λ e, ManifestNode.path e ≠ EmptyString)
           (concat ((λ m, concat (Py.values (Manifest.buckets m)))
                    <$> Py.values manifests))).
Proof.
  split; [apply flat_map_app|]. split; [apply flat_map_app|].
  unfold Py.len. f_equal. simpl.
  unfold Index._build, Py.values.
  induction manifests as [|[k m] ms IH]; [reflexivity|].
  rewrite !fmap_cons. cbn [flat_map concat snd].
  rewrite filter_app, !length_app, IH, build_well_length. reflexivity.
Qed.

End FlatIndex.


(* ===================================================================== *)
(** * Normal forms of tags and file names                                 *)
(* ===================================================================== *)

Section NormalForms.

Lemma split_pieces_no_sep (sep : ascii) (s : string) :
  Forall (λ p, Py.has_char sep p = false) (Py.split sep s).
Proof.
  induction s as [|c s IH]; [repeat constructor|]. simpl.
  destruct (decide (c = sep)) as [->|Hne]; [by constructor|].
  destruct (Py.split sep s) as [|p ps]; [repeat constructor|].
  - simpl. by rewrite decide_False.
  - apply Forall_cons in IH as [Hp Hps]. constructor; [|exact Hps].
    simpl. by rewrite decide_False.
Qed.

(** The file name taken from a path has no slash and is not ["."]; a path
    that is one plain name is its own file name. *)
Theorem filename_from_path_is_a_name (path : string) :
  Py.has_char "/" (Index._filename_from_path path) = false
  ∧ Index._filename_from_path path ≠ "."
  ∧ (Py.has_char "/" path = false → path ≠ "." →
     Index._filename_from_path path = path).
Proof.
  unfold Index._filename_from_path.
  set (parts := filter _ (Py.split "/" path)).
  assert (Hparts : Forall (λ x, Py.has_char "/" x = false ∧ x ≠ ".") parts).
  { apply Forall_forall. intros x Hx.
    apply list_elem_of_filter in Hx as [[_ Hdot] Hx].
    pose proof (split_pieces_no_sep "/" path) as Hs.
    rewrite Forall_forall in Hs. auto. }
  assert (Hlast : Py.has_char "/" (List.last parts EmptyString) = false
                  ∧ List.last parts EmptyString ≠ ".").
  { clear -Hparts. induction Hparts as [|x l Hx Hl IH]; [done|].
    destruct l; [exact Hx|exact IH]. }
  split; [apply Hlast|]. split; [apply Hlast|].
  intros Hslash Hdot. unfold parts. rewrite (split_absent _ _ Hslash).
  destruct path as [|c p]; [reflexivity|].
  rewrite filter_cons_True by done. reflexivity.
Qed.

Lemma has_char_lstrip (a : ascii) (s : string) :
  Py.has_char a s = false → Py.has_char a (Py.lstrip s) = false.
Proof.
  induction s as [|c s IH]; [done|]. simpl.
  destruct (decide (c = a)); [discriminate|]. intros H.
  destruct (Py.isspace c); [auto|]. simpl. by rewrite decide_False.
Qed.

Lemma has_char_rstrip (a : ascii) (s : string) :
  Py.has_char a s = false → Py.has_char a (Py.rstrip s) = false.
Proof.
  induction s as [|c s IH]; [done|]. simpl.
  destruct (decide (c = a)) as [|Hne]; [discriminate|]. intros H.
  specialize (IH H). destruct (Py.rstrip s) as [|d r].
  - destruct (Py.isspace c); [done|]. simpl. by rewrite decide_False.
  - change (Py.has_char a (String c (String d r)))
      with (if decide (c = a) then true else Py.has_char a (String d r)).
    by rewrite decide_False.
Qed.

Lemma has_char_strip (a : ascii) (s : string) :
  Py.has_char a s = false → Py.has_char a (Py.strip s) = false.
Proof. intros H. by apply has_char_rstrip, has_char_lstrip. Qed.

Lemma has_char_replaced (a b : ascii) (s : string) :
  a ≠ b → Py.has_char a (Py.replace a b s) = false.
Proof.
  intros Hab. induction s as [|c s IH]; [done|]. simpl.
  destruct (decide (c = a)) as [->|Hne].
  - rewrite decide_False by congruence. exact IH.
  - by rewrite decide_False.
Qed.

Lemma has_char_append (a : ascii) (s t : string) :
  Py.has_char a (s ++ t) = Py.has_char a s || Py.has_char a t.
Proof.
  induction s as [|c s IH]; [reflexivity|]. rewrite append_cons. simpl.
  destruct (decide (c = a)); [reflexivity|exact IH].
Qed.

Lemma split_append_sep (sep : ascii) (p rest : string) :
  Py.has_char sep p = false →
  Py.split sep (p ++ String sep rest) = p :: Py.split sep rest.
Proof.
  induction p as [|c p IH]; simpl.
  - intros _. change (EmptyString ++ String sep rest)%string
      with (String sep rest). simpl. by rewrite decide_True.
  - destruct (decide (c = sep)); [discriminate|]. intros H.
    by rewrite (IH H).
Qed.

(** Splitting on a separator undoes joining with it, for pieces that do not
    contain the separator. *)
Lemma split_join (sep : ascii) (l : list string) :
  l ≠ [] → Forall (λ p, Py.has_char sep p = false) l →
  Py.split sep (Py.join (String sep EmptyString) l) = l.
Proof.
  intros Hne Hl. induction Hl as [|p l Hp Hl IH]; [done|].
  destruct l as [|p' l'].
  - simpl. by apply split_absent.
  - change (Py.join (String sep EmptyString) (p :: p' :: l'))
      with (p ++ String sep EmptyString
              ++ Py.join (String sep EmptyString) (p' :: l'))%string.
    change (String sep EmptyString ++ ?x)%string with (String sep x).
    rewrite (split_append_sep _ _ _ Hp), IH; done.
Qed.

(** The pieces of a string of tags have neither separator. *)
Lemma split_tags_str_pieces (s : string) :
  Forall (λ t, Py.has_char "|" t = false ∧ Py.has_char "," t = false)
    (Index._split_tags (TagsStr s)).
Proof.
  rewrite split_tags_str. apply Forall_forall. intros t Ht.
  apply list_elem_of_filter in Ht as [_ Ht].
  apply list_elem_of_fmap in Ht as (u & -> & Hu).
  pose proof (split_pieces_no_sep "|" (Py.replace "," "|" s)) as Hs.
  rewrite Forall_forall in Hs. specialize (Hs u Hu).
  split; [by apply has_char_strip|]. apply has_char_strip.
  assert (Hc : Py.has_char "," (Py.replace "," "|" s) = false)
    by (by apply has_char_replaced).
  clear -Hc Hu. revert u Hu.
  generalize dependent (Py.replace "," "|" s). intros r.
  induction r as [|c r IH]; intros Hc u Hu.
  - apply list_elem_of_singleton in Hu as ->. done.
  - simpl in Hc, Hu. destruct (decide (c = ","%char)); [discriminate|].
    destruct (decide (c = "|"%char)).
    + apply elem_of_cons in Hu as [->|Hu]; [done|auto].
    + destruct (Py.split "|" r) as [|p ps] eqn:E.
      * apply list_elem_of_singleton in Hu as ->. simpl.
        by rewrite decide_False.
      * apply elem_of_cons in Hu as [->|Hu].
        -- simpl. rewrite decide_False by assumption.
           apply IH; [exact Hc|left].
        -- apply IH; [exact Hc|by right].
Qed.

(** Normalised tags are in normal form: given back as a list, they come
    out unchanged; and the tags got from a string, joined with ["|"] as the
    CSV export joins them, are got again from the joined string. *)
Theorem split_tags_stable (raw : RawTags) (s : string) :
  Index._split_tags (TagsList (Index._split_tags raw)) = Index._split_tags raw
  ∧ Index._split_tags
      (TagsStr (Py.join "|" (Index._split_tags (TagsStr s))))
    = Index._split_tags (TagsStr s).
Proof.
  assert (Hnf : ∀ l, Forall (λ t, t ≠ EmptyString ∧ Py.strip t = t) l →
                     filter (λ t, t ≠ EmptyString) (Py.strip <$> l) = l).
  { intros l Hl. induction Hl as [|t l [Hne Ht] _ IH]; [reflexivity|].
    rewrite fmap_cons, Ht, filter_cons_True by assumption. by rewrite IH. }
  assert (Hcanon : ∀ r, Forall (λ t, t ≠ EmptyString ∧ Py.strip t = t)
                          (Index._split_tags r)).
  { intros [|u|l]; [constructor| |].
    - rewrite split_tags_str. apply stripped_nonempty_pieces.
    - rewrite split_tags_list. apply stripped_nonempty_pieces. }
  split; [rewrite split_tags_list; apply Hnf, Hcanon|].
  pose proof (split_tags_str_pieces s) as Hp.
  pose proof (Hcanon (TagsStr s)) as Hc.
  destruct (Index._split_tags (TagsStr s)) as [|t ts] eqn:E; [reflexivity|].
  rewrite split_tags_str.
  assert (Hcomma : Py.has_char ","
                     (Py.join "|" (t :: ts)) = false).
  { clear -Hp. induction Hp as [|p l [_ Hp] _ IH]; [done|].
    destruct l as [|p' l']; [exact Hp|].
    change (Py.join "|" (p :: p' :: l'))
      with (p ++ "|" ++ Py.join "|" (p' :: l'))%string.
    rewrite !has_char_append, Hp, IH. reflexivity. }
  rewrite (replace_absent _ _ _ Hcomma), split_join; [by apply Hnf|done|].
  eapply Forall_impl; [exact Hp|]. by intros ? [? _].
Qed.

End NormalForms.


(* ===================================================================== *)
(** * More on deduplication                                               *)
(* ===================================================================== *)

Section DedupeKeys.

Lemma first_occ_from_covers {A K} `{EqDecision K} (key : A → K)
    (earlier : list K) (l : list A) :
  Forall (λ x, key x ∈ earlier
               ∨ ∃ y, y ∈ first_occ_from key earlier l ∧ key y = key x) l.
Proof.
  revert earlier. induction l as [|x l IH]; intros earlier; [constructor|].
  cbn [first_occ_from]. constructor.
  - destruct (decide (key x ∈ earlier)); [by left|].
    right. exists x. split; [left|reflexivity].
  - eapply Forall_impl; [apply (IH (earlier ++ [key x]))|].
    intros z [Hz|(y & Hy & Hk)].
    + apply elem_of_app in Hz as [Hz|Hz]; [by left|].
      apply list_elem_of_singleton in Hz.
      destruct (decide (key x ∈ earlier)) as [Hin|Hout];
        [left; by rewrite Hz|].
      right. exists x. split; [left|by rewrite Hz].
    + right. exists y. split; [|exact Hk].
      apply elem_of_app. by right.
Qed.

Lemma dedupe_length_le (results : list FileEntry.t) (key : string) :
  (Py.len (Api._dedupe_results results key) ≤ Py.len results)%Z.
Proof.
  rewrite dedupe_results_first_occurrences, first_occurrences_rec.
  unfold Py.len. apply inj_le, sublist_length, first_occ_from_sublist.
Qed.

(** Deduplication loses no key: every entry of the input has an entry of
    the same key in the result; the result is never longer than the input
    and starts with the first entry of the input. *)
Theorem dedupe_keeps_every_key (results : list FileEntry.t) (key : string) :
  Forall (λ r, ∃ r', r' ∈ Api._dedupe_results results key
                     ∧ Api.dedupe_k key r' = Api.dedupe_k key r) results
  ∧ (Py.len (Api._dedupe_results results key) ≤ Py.len results)%Z
  ∧ head (Api._dedupe_results results key) = head results.
Proof.
  split; [|split; [apply dedupe_length_le|]];
    rewrite dedupe_results_first_occurrences, first_occurrences_rec.
  - eapply Forall_impl;
      [apply (first_occ_from_covers (Api.dedupe_k key) [] results)|].
    intros r [Hr|Hr]; [by apply elem_of_nil in Hr|exact Hr].
  - destruct results as [|r rs]; [reflexivity|]. cbn [first_occ_from].
    rewrite decide_False by apply not_elem_of_nil. reflexivity.
Qed.

End DedupeKeys.

(* ===================================================================== *)
(** * The older endpoints                                                 *)
(* ===================================================================== *)

Section Legacy.

(** Without filters and with a blank query, the older search iterator
    passes one entry for every node of every bucket of every well, in source
    order (directories only if asked for): there is no text test, and a node
    with an empty path is passed as well. *)
Theorem legacy_blank_query_lists_all (MANIFESTS : Py.dict Manifest.t)
    (q : string) (include_dirs : bool) :
  Py.strip q = EmptyString →
  LegacyApi._iter_entries MANIFESTS q None None include_dirs
  = flat_map (λ '(wk, m),
      flat_map (λ '(bname, nodes),
        (λ n, FileEntry.mk (ManifestNode.type n) wk (Manifest.well_id m) bname
                (ManifestNode.path n) (ManifestNode.name n)
                (LegacyApi._split_tags (ManifestNode.tags n)))
        <$> filter (λ n, include_dirs = true ∨ ManifestNode.type n ≠ directory)
              nodes)
        (Manifest.buckets m)) MANIFESTS.
Proof.
  intros Hq. unfold LegacyApi._iter_entries.
  rewrite strip_lower, Hq. simpl.
  induction MANIFESTS as [|[wk m] ms IH]; [reflexivity|].
  cbn [flat_map]. rewrite IH. f_equal.
  generalize (Manifest.buckets m). intros bs.
  induction bs as [|[b nodes] bs IHb]; [reflexivity|].
  cbn [flat_map]. rewrite IHb. f_equal.
  induction nodes as [|n nodes IHn]; [reflexivity|].
  cbn [flat_map]. rewrite IHn, filter_cons.
  destruct (decide (include_dirs = true ∨ ManifestNode.type n ≠ directory))
    as [Hkeep|Hdrop].
  - assert (Hc : negb include_dirs
                 && bool_decide (ManifestNode.type n = directory) = false).
    { destruct include_dirs; [reflexivity|]. simpl.
      apply bool_decide_eq_false_2. by destruct Hkeep. }
    rewrite Hc. reflexivity.
  - assert (Hc : negb include_dirs
                 && bool_decide (ManifestNode.type n = directory) = true).
    { destruct include_dirs; [exfalso; apply Hdrop; by left|]. simpl.
      apply bool_decide_eq_true_2.
      destruct (decide (ManifestNode.type n = directory)); [done|].
      exfalso. apply Hdrop. by right. }
    rewrite Hc. reflexivity.
Qed.

End Legacy.


(* ===================================================================== *)
(** * More on the loader                                                  *)
(* ===================================================================== *)

Section LoaderMore.

Lemma find_preferred_spec (names : list string)
    (children : list (string * Loader.FsNode)) :
  match Loader.find_preferred names children with
  | Some (name, node) =>
      name ∈ names ∧ Loader.is_file node = true
      ∧ Py.get children name = Some node
  | None =>
      Forall (λ name, ∀ c, Py.get children name ≠ Some (Loader.FsFile c)) names
  end.
Proof.
  induction names as [|name names IH]; [constructor|]. simpl.
  destruct (Py.get children name) as [[c|cs]|] eqn:E.
  - split; [left|done].
  - destruct (Loader.find_preferred names children) as [[n node]|].
    + destruct IH as (? & ? & ?). split; [by right|done].
    + constructor; [congruence|exact IH].
  - destruct (Loader.find_preferred names children) as [[n node]|].
    + destruct IH as (? & ? & ?). split; [by right|done].
    + constructor; [congruence|exact IH].
Qed.

Lemma preferred_are_json :
  Forall (λ name, Py.endswith ".json" name = true) Loader.preferred.
Proof. repeat constructor. Qed.

Lemma sorted_by_name_elem_of (l : list (string * Loader.FsNode))
    (p : string * Loader.FsNode) :
  p ∈ Loader.sorted_by_name l ↔ p ∈ l.
Proof. unfold Loader.sorted_by_name. by rewrite merge_sort_Permutation. Qed.

(** Nothing is taken from a directory without a file ending in [".json"]. *)
Lemma find_manifest_none (children : list (string * Loader.FsNode)) :
  Loader.glob_json_files children = [] →
  Loader._find_manifest_json_in_well_dir children = None.
Proof.
  intros Hglob. unfold Loader._find_manifest_json_in_well_dir.
  pose proof (find_preferred_spec Loader.preferred children) as Hp.
  destruct (Loader.find_preferred Loader.preferred children) as [[n node]|].
  - destruct Hp as (Hn & Hf & Hg). exfalso.
    assert (Hin : (n, node) ∈ Loader.glob_json_files children).
    { apply list_elem_of_filter. split; [|by apply get_elem_of]. simpl.
      split; [|exact Hf].
      pose proof preferred_are_json as Hj. rewrite Forall_forall in Hj. auto. }
    rewrite Hglob in Hin. by apply elem_of_nil in Hin.
  - rewrite Hglob. reflexivity.
Qed.

(** What the loader takes from a well directory is a file of that
    directory whose name ends in [".json"]; a file named ["manifest.json"] is
    taken before any other; and nothing is taken exactly when the directory
    has no file whose name ends in [".json"]. *)
Theorem find_manifest_picks_json_file (children : list (string * Loader.FsNode)) :
  match Loader._find_manifest_json_in_well_dir children with
  | Some (name, node) =>
      (name, node) ∈ children ∧ Loader.is_file node = true
      ∧ Py.endswith ".json" name = true
  | None => Loader.glob_json_files children = []
  end
  ∧ (Loader.glob_json_files children = [] →
     Loader._find_manifest_json_in_well_dir children = None)
  ∧ (∀ c, Py.get children "manifest.json" = Some (Loader.FsFile c) →
          Loader._find_manifest_json_in_well_dir children
          = Some ("manifest.json", Loader.FsFile c)).
Proof.
  split; [|split; [apply find_manifest_none|]];
    unfold Loader._find_manifest_json_in_well_dir.
  - pose proof (find_preferred_spec Loader.preferred children) as Hp.
    destruct (Loader.find_preferred Loader.preferred children) as [[n node]|].
    + destruct Hp as (Hn & Hf & Hg). split; [by apply get_elem_of|].
      split; [exact Hf|].
      pose proof preferred_are_json as Hj. rewrite Forall_forall in Hj. auto.
    + destruct (head _) as [[n node]|] eqn:E.
      * apply head_Some_elem_of in E.
        apply (proj1 (sorted_by_name_elem_of _ _)) in E.
        apply list_elem_of_filter in E as [[He Hf] Hin]. done.
      * apply head_None in E. by apply sorted_by_name_nil in E.
  - intros c Hc. unfold Loader.preferred. simpl. by rewrite Hc.
Qed.

Lemma set_length_le {V} (d : Py.dict V) (k : string) (v : V) :
  (List.length (Py.set d k v) ≤ S (List.length d))%nat.
Proof.
  induction d as [|[k' v'] d IH]; simpl; [lia|].
  destruct (decide (k' = k)); simpl; lia.
Qed.

Lemma load_subdirs_log (subdirs : list (string * Loader.FsNode))
    (ms ms' : Py.dict Manifest.t) (opened opened' : list Loader.Opened) :
  Loader.load_subdirs subdirs ms opened = (inr ms', opened') →
  ∃ extra, opened' = opened ++ extra
           ∧ (List.length ms' ≤ List.length ms + List.length extra)%nat
           ∧ (ms ≠ [] → ms' ≠ []).
Proof.
  revert ms opened. induction subdirs as [|[d w] rest IH]; intros ms opened.
  - intros [= <- <-]. exists []. rewrite app_nil_r. simpl. split; [done|].
    split; [lia|done].
  - cbn [Loader.load_subdirs].
    destruct (Loader._find_manifest_json_in_well_dir _) as [[f node]|];
      [|apply IH].
    unfold mbind, Loader.io_bind, Loader.bind, Loader._read_json.
    destruct (Loader.content_of node) as [|[m|]| |]; simpl; try discriminate.
    intros H. apply IH in H as (extra & -> & Hlen & Hne).
    exists (Loader.InWellDir d f :: extra).
    rewrite <- (assoc_L (++)). split; [done|].
    pose proof (set_length_le ms (Loader._normalize_loaded_key d m) m).
    simpl. split; [lia|]. intros _. apply Hne.
    destruct ms as [|[k v] ms]; simpl; [done|]. by destruct (decide _).
Qed.

Lemma load_json_files_log (json_files : list (string * Loader.FsNode))
    (ms ms' : Py.dict Manifest.t) (opened opened' : list Loader.Opened) :
  Loader.load_json_files json_files ms opened = (inr ms', opened') →
  ∃ extra, opened' = opened ++ extra
           ∧ (List.length ms' ≤ List.length ms + List.length extra)%nat.
Proof.
  revert ms opened. induction json_files as [|[f node] rest IH]; intros ms opened.
  - intros [= <- <-]. exists []. rewrite app_nil_r. simpl. split; [done|lia].
  - cbn [Loader.load_json_files].
    unfold mbind, Loader.io_bind, Loader.bind, Loader._read_json.
    destruct (Loader.content_of node) as [|[m|]| |]; simpl; try discriminate.
    intros H. apply IH in H as (extra & -> & Hlen).
    exists (Loader.InBase f :: extra).
    rewrite <- (assoc_L (++)). split; [done|].
    pose proof (set_length_le ms (Loader.stem f) m). simpl. lia.
Qed.

Lemma case_b_log (children : list (string * Loader.FsNode))
    (ms ms' : Py.dict Manifest.t) (opened opened' : list Loader.Opened) :
  Loader.case_b children ms opened = (inr ms', opened') →
  ms' ≠ []
  ∧ ∃ extra, opened' = opened ++ extra
             ∧ (List.length ms' ≤ List.length ms + List.length extra)%nat.
Proof.
  unfold Loader.case_b, mbind, Loader.io_bind, Loader.bind.
  destruct (Loader.load_json_files _ ms opened) as [[e|ms1] opened1] eqn:E;
    [discriminate|].
  apply load_json_files_log in E.
  destruct ms1 as [|p ms1]; [discriminate|]. intros [= <- <-]. done.
Qed.

(** The loader never returns an empty mapping: when it returns, the path
    named a directory, the mapping has at least one manifest, and every
    manifest of it was read from a file of its own, so that the mapping is
    not larger than the number of files opened. *)
Theorem loader_result_nonempty (base : option Loader.FsNode)
    (manifests : Py.dict Manifest.t) (opened : list Loader.Opened) :
  Loader.run (Loader.load_manifests_from_wells_dir base)
  = (inr manifests, opened) →
  manifests ≠ []
  ∧ (Py.len manifests ≤ Py.len opened)%Z
  ∧ ∃ children, base = Some (Loader.FsDir children).
Proof.
  unfold Loader.run. destruct base as [[c|children]|]; try discriminate.
  unfold Loader.load_manifests_from_wells_dir, Py.len.
  destruct (Loader.sorted_by_name _) as [|p ps].
  - intros H. apply case_b_log in H as (Hne & extra & -> & Hlen).
    simpl in *. split; [exact Hne|]. split; [lia|eauto].
  - unfold mbind, Loader.io_bind, Loader.bind.
    destruct (Loader.load_subdirs (p :: ps) [] []) as [[e|ms1] opened1] eqn:E;
      [discriminate|].
    apply load_subdirs_log in E as (extra1 & -> & Hlen1 & _). simpl in *.
    destruct ms1 as [|q ms1].
    + intros H. apply case_b_log in H as (Hne & extra & -> & Hlen).
      split; [exact Hne|]. rewrite length_app. simpl in *. split; [lia|eauto].
    + intros [= <- <-]. split; [done|]. simpl in *. split; [lia|eauto].
Qed.

(** The part of it that start-up relies on. *)
Lemma load_returns_nonempty (base : option Loader.FsNode)
    (manifests : Py.dict Manifest.t) (opened : list Loader.Opened) :
  Loader.run (Loader.load_manifests_from_wells_dir base)
  = (inr manifests, opened) →
  manifests ≠ [].
Proof.
  unfold Loader.run. destruct base as [[c|children]|]; try discriminate.
  unfold Loader.load_manifests_from_wells_dir.
  destruct (Loader.sorted_by_name _) as [|p ps].
  - intros H. by apply case_b_log in H as [Hne _].
  - unfold mbind, Loader.io_bind, Loader.bind.
    destruct (Loader.load_subdirs (p :: ps) [] []) as [[e|[|q ms1]] opened1];
      [discriminate| |by intros [= <- <-]].
    intros H. by apply case_b_log in H as [Hne _].
Qed.

End LoaderMore.

Section LoaderErrors.

Lemma load_subdirs_invalid (subdirs : list (string * Loader.FsNode))
    (d f : string) (w node : Loader.FsNode)
    (ms : Py.dict Manifest.t) (opened : list Loader.Opened) :
  (d, w) ∈ subdirs →
  Loader._find_manifest_json_in_well_dir (Loader.children_of w) = Some (f, node) →
  (∀ m, Loader.content_of node ≠ Loader.Json (Some m)) →
  ∃ e opened',
    Loader.load_subdirs subdirs ms opened = (inl e, opened')
    ∧ (e = Loader.OSError ∨ e = Loader.UnicodeDecodeError
       ∨ e = Loader.JSONDecodeError ∨ e = Loader.ValidationError).
Proof.
  intros Hin Hfind Hbad. revert ms opened.
  induction subdirs as [|[d' w'] rest IH]; intros ms opened;
    [by apply elem_of_nil in Hin|].
  cbn [Loader.load_subdirs].
  apply elem_of_cons in Hin as [[= <- <-]|Hin].
  - rewrite Hfind.
    unfold mbind, Loader.io_bind, Loader.bind, Loader._read_json.
    destruct (Loader.content_of node) as [|[m|]| |]; simpl; eauto 7.
    by destruct (Hbad m).
  - specialize (IH Hin).
    destruct (Loader._find_manifest_json_in_well_dir (Loader.children_of w'))
      as [[f' node']|]; [|by apply IH].
    unfold mbind, Loader.io_bind, Loader.bind, Loader._read_json.
    destruct (Loader.content_of node') as [|[m|]| |]; simpl; eauto 7.
Qed.

(** Loading is all or nothing: if the file taken from one of the well
    directories does not give a valid manifest (it cannot be opened, is not
    UTF-8, is not JSON, or does not validate), the loader raises the error
    of the first such file, one of [OSError], [UnicodeDecodeError],
    [JSONDecodeError] and [ValidationError], and returns no mapping,
    whatever the other directories hold. *)
Theorem loader_rejects_invalid_manifest
    (children : list (string * Loader.FsNode)) (d f : string)
    (w node : Loader.FsNode) :
  (d, w) ∈ children → Loader.is_dir w = true →
  Loader._find_manifest_json_in_well_dir (Loader.children_of w) = Some (f, node) →
  (∀ m, Loader.content_of node ≠ Loader.Json (Some m)) →
  ∃ e opened,
    Loader.run (Loader.load_manifests_from_wells_dir
                  (Some (Loader.FsDir children))) = (inl e, opened)
    ∧ (e = Loader.OSError ∨ e = Loader.UnicodeDecodeError
       ∨ e = Loader.JSONDecodeError ∨ e = Loader.ValidationError).
Proof.
  intros Hin Hdir Hfind Hbad.
  unfold Loader.run, Loader.load_manifests_from_wells_dir.
  set (subdirs := Loader.sorted_by_name _).
  assert (Hsub : (d, w) ∈ subdirs).
  { apply sorted_by_name_elem_of, list_elem_of_filter. by split. }
  destruct (load_subdirs_invalid subdirs d f w node [] [] Hsub Hfind Hbad)
    as (e & opened & Hload & He).
  destruct subdirs as [|p ps]; [by apply elem_of_nil in Hsub|].
  unfold mbind, Loader.io_bind, Loader.bind. rewrite Hload. eauto.
Qed.

Lemma load_subdirs_nothing (subdirs : list (string * Loader.FsNode))
    (ms : Py.dict Manifest.t) (opened : list Loader.Opened) :
  Forall (λ p, Loader.glob_json_files (Loader.children_of p.2) = []) subdirs →
  Loader.load_subdirs subdirs ms opened = (inr ms, opened).
Proof.
  induction 1 as [|[d w] rest Hw _ IH]; [reflexivity|].
  cbn [Loader.load_subdirs]. simpl in Hw.
  by rewrite (find_manifest_none _ Hw).
Qed.

(** A directory without any JSON file, neither in its subdirectories nor in
    itself, is a [RuntimeError], raised without a file having been opened;
    a path that names nothing and a path that names a file are errors of
    their own. *)
Theorem loader_without_json_fails (children : list (string * Loader.FsNode))
    (c : Loader.FileContent) :
  Forall (λ p, Loader.glob_json_files (Loader.children_of p.2) = []) children →
  Loader.glob_json_files children = [] →
  Loader.run (Loader.load_manifests_from_wells_dir
                (Some (Loader.FsDir children))) = (inl Loader.RuntimeError, [])
  ∧ Loader.run (Loader.load_manifests_from_wells_dir None)
    = (inl Loader.FileNotFoundError, [])
  ∧ Loader.run (Loader.load_manifests_from_wells_dir (Some (Loader.FsFile c)))
    = (inl Loader.NotADirectoryError, []).
Proof.
  intros Hsub Hglob. split; [|done].
  assert (Hb : Loader.case_b children [] [] = (inl Loader.RuntimeError, [])).
  { unfold Loader.case_b. rewrite Hglob. reflexivity. }
  unfold Loader.run, Loader.load_manifests_from_wells_dir.
  set (subdirs := Loader.sorted_by_name _).
  assert (Hnone : Forall (λ p, Loader.glob_json_files (Loader.children_of p.2) = [])
                    subdirs).
  { apply Forall_forall. intros p Hp.
    apply sorted_by_name_elem_of, list_elem_of_filter in Hp as [_ Hp].
    rewrite Forall_forall in Hsub. auto. }
  destruct subdirs as [|p ps]; [exact Hb|].
  unfold mbind, Loader.io_bind, Loader.bind.
  rewrite (load_subdirs_nothing _ _ _ Hnone). exact Hb.
Qed.

End LoaderErrors.

Section LoaderKeys.

Lemma rfind_append (a : ascii) (k t : string) :
  Loader.rfind a (k ++ t)
  = match Loader.rfind a t with
    | Some i => Some (String.length k + i)%nat
    | None => Loader.rfind a k
    end.
Proof.
  induction k as [|c k IH].
  - change (EmptyString ++ t)%string with t. simpl.
    by destruct (Loader.rfind a t).
  - rewrite append_cons. simpl. rewrite IH.
    by destruct (Loader.rfind a t).
Qed.

Lemma string_length_append (k t : string) :
  String.length (k ++ t) = (String.length k + String.length t)%nat.
Proof.
  induction k as [|c k IH]; [reflexivity|]. rewrite append_cons. simpl.
  by rewrite IH.
Qed.

Lemma substring_prefix (k t : string) :
  String.substring 0 (String.length k) (k ++ t) = k.
Proof.
  induction k as [|c k IH].
  - change (EmptyString ++ t)%string with t. by destruct t.
  - rewrite append_cons. simpl. by rewrite IH.
Qed.

Lemma rev_app_append (a b acc : string) :
  String.rev_app (a ++ b) acc = String.rev_app b (String.rev_app a acc).
Proof.
  revert acc. induction a as [|c a IH]; intros acc; [reflexivity|].
  rewrite append_cons. simpl. apply IH.
Qed.

Lemma rev_app_acc (b acc : string) :
  String.rev_app b acc = (String.rev_app b EmptyString ++ acc)%string.
Proof.
  revert acc. induction b as [|c b IH]; intros acc; [reflexivity|]. simpl.
  rewrite (IH (String c acc)), (IH (String c EmptyString)), append_assoc.
  reflexivity.
Qed.

Lemma endswith_append (k p : string) : Py.endswith p (k ++ p) = true.
Proof.
  unfold Py.endswith, String.rev. rewrite rev_app_append.
  apply startswith_iff. exists (String.rev_app k EmptyString).
  apply rev_app_acc.
Qed.

(** In the flat layout a file [K.json] gives the well key [K]: the stem of
    the name is what stands before [".json"], and a directory with that one
    file, holding a valid manifest, loads as the mapping of [K] to it, the
    file having been opened once. *)
Theorem flat_layout_key_is_stem (k : string) (m : Manifest.t) :
  k ≠ EmptyString →
  Loader.stem (k ++ ".json") = k
  ∧ Loader.run (Loader.load_manifests_from_wells_dir
                  (Some (Loader.FsDir
                     [((k ++ ".json")%string,
                       Loader.FsFile (Loader.Json (Some m)))])))
    = (inr [(k, m)], [Loader.InBase (k ++ ".json")]).
Proof.
  intros Hk.
  assert (Hstem : Loader.stem (k ++ ".json") = k).
  { unfold Loader.stem. rewrite rfind_append. simpl Loader.rfind.
    cbv iota beta. rewrite Nat.add_0_r, string_length_append.
    rewrite bool_decide_eq_true_2.
    - apply substring_prefix.
    - destruct k; [done|]. simpl. lia. }
  split; [exact Hstem|].
  unfold Loader.run, Loader.load_manifests_from_wells_dir.
  rewrite filter_cons_False by (simpl; discriminate).
  rewrite filter_nil. change (Loader.sorted_by_name []) with
    (@nil (string * Loader.FsNode)). cbv iota.
  unfold Loader.case_b, Loader.glob_json_files.
  rewrite filter_cons_True by (simpl; split; [apply endswith_append|done]).
  rewrite filter_nil.
  change (Loader.sorted_by_name [?x]) with [x].
  cbn [Loader.load_json_files].
  unfold mbind, Loader.io_bind, Loader.bind, Loader._read_json. simpl.
  rewrite Hstem. reflexivity.
Qed.

(** The key of a well directory is stripped; it is the stripped directory
    name whenever that is not blank, whatever the manifest says, and
    otherwise comes from the well id, with ["_"] for every ["/"]. *)
Theorem normalized_key_is_stripped (folder_name : string) (m : Manifest.t) :
  Py.strip (Loader._normalize_loaded_key folder_name m)
  = Loader._normalize_loaded_key folder_name m
  ∧ (Py.strip folder_name ≠ EmptyString →
     Loader._normalize_loaded_key folder_name m = Py.strip folder_name)
  ∧ (Py.strip folder_name = EmptyString →
     Loader._normalize_loaded_key folder_name m
     = Py.strip (Py.replace "/" "_" (Manifest.well_id m))
     ∧ Py.has_char "/" (Loader._normalize_loaded_key folder_name m) = false).
Proof.
  unfold Loader._normalize_loaded_key.
  destruct (Py.strip folder_name) as [|c s] eqn:E.
  - rewrite andb_false_r. split; [apply strip_idem|]. split; [done|].
    intros _. split; [reflexivity|].
    apply has_char_strip, has_char_replaced. done.
  - assert (Ht : Py.truthy folder_name = true).
    { destruct folder_name; [discriminate|reflexivity]. }
    rewrite Ht. simpl. split; [rewrite <- E; apply strip_idem|].
    split; [done|discriminate].
Qed.

End LoaderKeys.


(* ===================================================================== *)
(** * Start-up and the bound on totals                                    *)
(* ===================================================================== *)

Section StartUp.

(** [init_app] records the directory in every case.  When the loader
    returns, the index is built from a mapping that is not empty, and the
    health and well listing endpoints report its size; when the loader
    raises, the index stays what it was. *)
Theorem init_app_outcome (st : App.state) (wells_dir : string)
    (base : option Loader.FsNode) :
  let st' := (App.init_app st wells_dir base).2 in
  App._SOURCE_DIR st' = wells_dir
  ∧ match (App.init_app st wells_dir base).1 with
    | inl e =>
        (Loader.run (Loader.load_manifests_from_wells_dir base)).1 = inl e
        ∧ App._INDEX st' = App._INDEX st
    | inr _ =>
        ∃ manifests,
          (Loader.run (Loader.load_manifests_from_wells_dir base)).1
          = inr manifests
          ∧ App._INDEX st' = Some (Index.init manifests)
          ∧ (1 ≤ Py.len manifests)%Z
          ∧ Api.health (App._INDEX st') (App._SOURCE_DIR st')
            = HealthResponse.mk (Py.len manifests) (Py.len manifests) wells_dir
          ∧ Api.list_wells (App._INDEX st')
            = Ok (WellsResponse.mk (Py.len manifests)
                    (Py.sorted (Py.keys manifests)))
    end.
Proof.
  unfold App.init_app.
  destruct (Loader.run (Loader.load_manifests_from_wells_dir base))
    as [[e|manifests] opened] eqn:E; simpl; [done|].
  split; [reflexivity|]. exists manifests. split; [reflexivity|].
  split; [reflexivity|].
  apply load_returns_nonempty in E as Hne.
  split; [destruct manifests; [done|unfold Py.len; simpl; lia]|].
  split; [reflexivity|]. apply list_wells_response.
Qed.

(** Before a successful start-up every endpoint over the index answers 500
    ["Manifests not loaded"], and the health endpoint answers with zero
    wells. *)
Theorem not_loaded_answers (well_key bucket_name q source_dir : string)
    (wk bucket : option string) (limit offset : Z)
    (include_dirs dedupe : bool) (dedupe_key : string) :
  App._INDEX App.initial = None
  ∧ Api.health None source_dir = HealthResponse.mk 0 0 source_dir
  ∧ Api.list_wells None = HTTPException 500 "Manifests not loaded"
  ∧ Api.summary None limit offset = HTTPException 500 "Manifests not loaded"
  ∧ Api.well_summary None well_key = HTTPException 500 "Manifests not loaded"
  ∧ Api.well_buckets None well_key = HTTPException 500 "Manifests not loaded"
  ∧ Api.bucket_files None well_key bucket_name limit offset
    = HTTPException 500 "Manifests not loaded"
  ∧ Api.foreign_references None well_key
    = HTTPException 500 "Manifests not loaded"
  ∧ Api.search None q wk bucket limit offset include_dirs dedupe dedupe_key
    = HTTPException 500 "Manifests not loaded"
  ∧ Api.search_in_well None well_key q bucket limit offset
      include_dirs dedupe dedupe_key
    = HTTPException 500 "Manifests not loaded".
Proof. repeat split; reflexivity. Qed.

Lemma slice_length_bound {A} (l : list A) (n : Z) :
  (0 ≤ n)%Z → (Py.len (Py.slice l 0 (0 + n)) ≤ n)%Z.
Proof.
  intros Hn. rewrite slice_from_zero by lia. by apply paginate_length.
Qed.

(** The endpoints never see more than 999999 hits: the total of a search
    is at most 999999 on every index, and at most the number of entries of
    the flat index. *)
Theorem search_total_bounded (idx : Index.ManifestIndex) (q : string)
    (well_key bucket : option string) (include_dirs dedupe : bool)
    (dedupe_key : string) :
  (Py.len (Api.search_results idx q well_key bucket include_dirs dedupe
             dedupe_key) ≤ 999999)%Z
  ∧ (Py.len (Api.search_results idx q well_key bucket include_dirs dedupe
               dedupe_key) ≤ Py.len (Index._flat idx))%Z.
Proof.
  unfold Api.search_results.
  destruct (Index.search idx q well_key bucket 999999 0) as [total hits] eqn:E.
  assert (Hhits : (Py.len hits ≤ 999999)%Z ∧ hits `sublist_of` Index._flat idx).
  { unfold Index.search in E.
    destruct (negb (Py.truthy (Py.lower (Py.strip q)))).
    - injection E as _ <-. split; [unfold Py.len; simpl; lia|].
      apply sublist_nil_l.
    - injection E as _ <-. split; [by apply slice_length_bound|].
      etrans; [apply slice_sublist|apply sublist_filter]. }
  destruct Hhits as [Hcap Hsub].
  set (entries := Api._hit_to_entry <$> filter _ hits).
  assert (Hentries : (Py.len entries ≤ Py.len hits)%Z).
  { unfold entries, Py.len. rewrite length_fmap. apply inj_le, length_filter. }
  assert (Hres : (Py.len (if dedupe then Api._dedupe_results entries dedupe_key
                          else entries) ≤ Py.len entries)%Z).
  { destruct dedupe; [apply dedupe_length_le|lia]. }
  apply sublist_length in Hsub. unfold Py.len in *. lia.
Qed.

End StartUp.


(* ===================================================================== *)
(** * Further theorems with hypotheses, at concrete inputs                *)
(* ===================================================================== *)

Lemma build_provenance_witness :
  Ex.hit_b ∈ Index._build Ex.manifests
  ∧ ∃ m entries e,
      (SearchHit.well_key Ex.hit_b, m) ∈ Ex.manifests
      ∧ (SearchHit.bucket Ex.hit_b, entries) ∈ Manifest.buckets m
      ∧ e ∈ entries ∧ SearchHit.path Ex.hit_b = ManifestNode.path e.
Proof.
  assert (H : Ex.hit_b ∈ Index._build Ex.manifests) by (vm_compute; left).
  split; [exact H|]. exact (build_provenance Ex.manifests Ex.hit_b H).
Defined.

Lemma search_finds_entry_by_field_witness :
  Ex.hit_b ∈ Index._flat Ex.index
  ∧ Py.strip "b.txt" ≠ EmptyString
  ∧ Index.hit (Py.lower (Py.strip "b.txt")) None None Ex.hit_b = true.
Proof.
  assert (H : Ex.hit_b ∈ Index._flat Ex.index) by (vm_compute; left).
  split; [exact H|]. split; [by vm_compute|].
  refine (proj1 (search_finds_entry_by_field Ex.index Ex.hit_b "b.txt" H _ _)).
  - vm_compute. left.
  - by vm_compute.
Defined.

Lemma search_pages_concatenate_witness :
  ∃ r1 r2 r12,
    Api.search (Some Ex.index) "b.txt" None None 1 0 false true "path" = Ok r1
    ∧ Api.search (Some Ex.index) "b.txt" None None 1 (0 + 1) false true "path"
      = Ok r2
    ∧ Api.search (Some Ex.index) "b.txt" None None (1 + 1) 0 false true "path"
      = Ok r12
    ∧ SearchResponse.results r1 ++ SearchResponse.results r2
      = SearchResponse.results r12.
Proof.
  destruct (search_pages_concatenate Ex.index "b.txt" None None 0 1 1
              false true "path" ltac:(lia) ltac:(lia) ltac:(lia))
    as (r1 & r2 & r12 & H1 & H2 & H12 & _ & _ & Hcat & _).
  exists r1, r2, r12. done.
Defined.

Lemma unknown_well_not_found_witness :
  Py.get (Index.manifests Ex.index) "Z" = None
  ∧ Api.well_summary (Some Ex.index) "Z" = HTTPException 404 "Unknown well_key".
Proof.
  split; [reflexivity|].
  exact (proj1 (unknown_well_not_found Ex.index "Z" "docs" "q" None 10 0
                  false true "path" eq_refl)).
Defined.

Lemma known_well_endpoints_agree_witness :
  Py.get (Index.manifests Ex.index) "A" = Some Ex.manifest_a
  ∧ ∃ s f, Api.well_summary (Some Ex.index) "A" = Ok s
           ∧ Api.foreign_references (Some Ex.index) "A" = Ok f
           ∧ WellSummary.foreign_reference_count s
             = ForeignReferencesResponse.count f.
Proof.
  split; [reflexivity|].
  destruct (known_well_endpoints_agree Ex.index "A" "q" Ex.manifest_a None 10 0
              false true "path" eq_refl)
    as (s & b & f & Hs & _ & Hf & _ & _ & Hc & _).
  exists s, f. done.
Defined.

Lemma summary_counts_every_node_witness :
  Py.get (Index.manifests Ex.index) "A" = Some Ex.manifest_a
  ∧ ∃ s, Index.summary Ex.index "A" = Some s
         ∧ WellSummary.total_files s
           = Py.len (concat (Py.values (Manifest.buckets Ex.manifest_a))).
Proof.
  split; [reflexivity|].
  destruct (summary_counts_every_node Ex.index "A" Ex.manifest_a eq_refl
              (or_introl eq_refl)) as (s & Hs & _ & Ht & _).
  exists s. done.
Defined.

Lemma bucket_listing_from_manifest_witness :
  NoDup (Py.keys Ex.manifests)
  ∧ Py.get Ex.manifests "A" = Some Ex.manifest_a
  ∧ Py.get (Manifest.buckets Ex.manifest_a) "docs" = Some [Ex.node_b]
  ∧ Index.bucket_files (Index.init Ex.manifests) "A" "docs"
    = Some (Index._build_bucket "A"
              (Index.str_or (Manifest.well_id Ex.manifest_a)
                 (Py.replace "_" "/" "A")) "docs" [Ex.node_b]).
Proof.
  assert (H1 : NoDup (Py.keys Ex.manifests)) by apply NoDup_singleton.
  assert (H2 : NoDup (Py.keys (Manifest.buckets Ex.manifest_a)))
    by apply NoDup_singleton.
  split; [exact H1|]. split; [reflexivity|]. split; [reflexivity|].
  exact (proj1 (bucket_listing_from_manifest Ex.manifests "A" "docs"
                  Ex.manifest_a [Ex.node_b] 200 0 H1 eq_refl H2 eq_refl)).
Defined.

Lemma legacy_blank_query_lists_all_witness :
  Py.strip " " = EmptyString
  ∧ LegacyApi._iter_entries Ex.manifests " " None None false = [Ex.entry_b].
Proof.
  split; [reflexivity|].
  rewrite (legacy_blank_query_lists_all Ex.manifests " " false eq_refl).
  reflexivity.
Defined.

Lemma loader_result_nonempty_witness :
  Loader.run (Loader.load_manifests_from_wells_dir
                (Some (Loader.FsDir Ex.children_fallback)))
  = (inr [("W", Ex.manifest_a)], [Loader.InBase "W.json"])
  ∧ [("W", Ex.manifest_a)] ≠ [].
Proof.
  assert (H : Loader.run (Loader.load_manifests_from_wells_dir
                            (Some (Loader.FsDir Ex.children_fallback)))
              = (inr [("W", Ex.manifest_a)], [Loader.InBase "W.json"]))
    by (by vm_compute).
  split; [exact H|]. exact (proj1 (loader_result_nonempty _ _ _ H)).
Defined.

Lemma loader_rejects_invalid_manifest_witness :
  let w := Loader.FsDir [("manifest.json", Loader.FsFile Loader.NotUtf8)] in
  let children := ("B", w) :: Ex.children_same_key in
  ("B", w) ∈ children
  ∧ ∃ e opened,
      Loader.run (Loader.load_manifests_from_wells_dir
                    (Some (Loader.FsDir children))) = (inl e, opened)
      ∧ (e = Loader.OSError ∨ e = Loader.UnicodeDecodeError
         ∨ e = Loader.JSONDecodeError ∨ e = Loader.ValidationError).
Proof.
  intros w children.
  assert (H : ("B", w) ∈ children) by left.
  split; [exact H|].
  refine (loader_rejects_invalid_manifest children "B" "manifest.json" w
            (Loader.FsFile Loader.NotUtf8) H eq_refl eq_refl _).
  intros m. discriminate.
Defined.

Lemma loader_without_json_fails_witness :
  Loader.glob_json_files [("empty", Loader.FsDir [])] = []
  ∧ Loader.run (Loader.load_manifests_from_wells_dir
                  (Some (Loader.FsDir [("empty", Loader.FsDir [])])))
    = (inl Loader.RuntimeError, []).
Proof.
  split; [reflexivity|].
  refine (proj1 (loader_without_json_fails [("empty", Loader.FsDir [])]
                   Loader.NotJson _ eq_refl)).
  repeat constructor.
Defined.

Lemma flat_layout_key_is_stem_witness :
  "15_9-F-1" ≠ EmptyString
  ∧ Loader.stem ("15_9-F-1" ++ ".json") = "15_9-F-1".
Proof.
  split; [discriminate|].
  exact (proj1 (flat_layout_key_is_stem "15_9-F-1" Ex.manifest_a
                  ltac:(discriminate))).
Defined.
